(** * Order Assistant Gateway: the three request handlers of [main.py]

    The handlers of the gateway ([identify_restaurant], [scan_menu],
    [chat_with_bill]) are embedded as computations in a small state and
    error monad.  The outside world (the places service and the language
    model) is an oracle threaded through the monad; every outbound call is
    recorded in an outbox so that what a handler sent can be stated.

    Python values that reach the handlers from JSON are values of [value];
    the numbers among them are the integers (non-integral numbers are not
    represented).  Writing to standard output ([print]) is not part of a
    response and is left out.  An [exn] is an instance of Python's
    [Exception], the class the [except] clauses of the source name. *)

From Stdlib Require Import List String Ascii ZArith Bool Lia PrimFloat.
From Stdlib.Strings Require Import Byte.
Import ListNotations.
Local Open Scope string_scope.
Local Open Scope list_scope.
Set Warnings "-register-all".

(** ** Python values and exceptions *)

Module Py.

Inductive value : Type :=
| JNull
| JBool (b : bool)
| JInt (z : Z)
| JStr (s : string)
| JArr (items : list value)
| JObj (fields : list (string * value)).

Inductive exn : Type :=
| IndexError
| KeyError (key : value)
| TypeError
| AttributeError
| ValueError
| JSONDecodeError
| ServiceError (detail : string).

Inductive result (A : Type) : Type :=
| Ok (a : A)
| Raise (e : exn).
Arguments Ok {A} a.
Arguments Raise {A} e.

Definition rbind {A B} (r : result A) (k : A -> result B) : result B :=
  match r with
  | Ok a => k a
  | Raise e => Raise e
  end.

(** A dict is kept as its items in insertion order; keys are distinct. *)
Fixpoint dict_lookup (k : string) (d : list (string * value)) : option value :=
  match d with
  | [] => None
  | (k', v) :: rest => if String.eqb k k' then Some v else dict_lookup k rest
  end.

(** [bool] is a subclass of [int]: [True == 1] and [False == 0]. *)
Definition as_int (v : value) : option Z :=
  match v with
  | JBool true => Some 1%Z
  | JBool false => Some 0%Z
  | JInt z => Some z
  | _ => None
  end.

(** [a == b] *)
Fixpoint py_eq (a b : value) {struct a} : bool :=
  match a, b with
  | JNull, JNull => true
  | JBool x, JBool y => Bool.eqb x y
  | JBool x, JInt z => Z.eqb (if x then 1 else 0) z
  | JInt z, JBool y => Z.eqb z (if y then 1 else 0)
  | JInt x, JInt y => Z.eqb x y
  | JStr s, JStr t => String.eqb s t
  | JArr xs, JArr ys =>
      (fix elementwise (l1 l2 : list value) {struct l1} : bool :=
         match l1, l2 with
         | [], [] => true
         | x :: l1', y :: l2' => py_eq x y && elementwise l1' l2'
         | _, _ => false
         end) xs ys
  | JObj d1, JObj d2 =>
      Nat.eqb (List.length d1) (List.length d2) &&
      (fix included (d : list (string * value)) {struct d} : bool :=
         match d with
         | [] => true
         | (k, v) :: d' =>
             match dict_lookup k d2 with
             | Some w => py_eq v w
             | None => false
             end && included d'
         end) d1
  | _, _ => false
  end.

(** [bool(v)] *)
Definition truthy (v : value) : bool :=
  match v with
  | JNull => false
  | JBool b => b
  | JInt z => negb (Z.eqb z 0)
  | JStr s => negb (String.eqb s "")
  | JArr l => match l with [] => false | _ => true end
  | JObj d => match d with [] => false | _ => true end
  end.

(** Position [i] of a sequence of length [n], negative positions counting
    from the end. *)
Definition seq_index (n : nat) (i : Z) : option nat :=
  let len := Z.of_nat n in
  if ((0 <=? i) && (i <? len))%Z then Some (Z.to_nat i)
  else if ((- len <=? i) && (i <? 0))%Z then Some (Z.to_nat (len + i))
  else None.

Fixpoint string_nth (n : nat) (s : string) : option ascii :=
  match s, n with
  | EmptyString, _ => None
  | String c _, O => Some c
  | String _ s', S n' => string_nth n' s'
  end.

(** [v[key]] *)
Definition getitem (v key : value) : result value :=
  match v with
  | JObj d =>
      match key with
      | JStr k =>
          match dict_lookup k d with
          | Some x => Ok x
          | None => Raise (KeyError key)
          end
      | JArr _ | JObj _ => Raise TypeError
      | _ => Raise (KeyError key)
      end
  | JArr l =>
      match as_int key with
      | Some i =>
          match seq_index (List.length l) i with
          | Some n =>
              match nth_error l n with
              | Some x => Ok x
              | None => Raise IndexError
              end
          | None => Raise IndexError
          end
      | None => Raise TypeError
      end
  | JStr s =>
      match as_int key with
      | Some i =>
          match seq_index (String.length s) i with
          | Some n =>
              match string_nth n s with
              | Some c => Ok (JStr (String c EmptyString))
              | None => Raise IndexError
              end
          | None => Raise IndexError
          end
      | None => Raise TypeError
      end
  | _ => Raise TypeError
  end.

(** [v.get(k)]: only a dict has the method. *)
Definition get (v : value) (k : string) : result value :=
  match v with
  | JObj d =>
      match dict_lookup k d with
      | Some x => Ok x
      | None => Ok JNull
      end
  | _ => Raise AttributeError
  end.

(** [x in l] *)
Definition contains (x : value) (l : list value) : bool :=
  existsb (fun e => py_eq e x) l.

(** [l.remove(x)]: deletes the first element equal to [x]. *)
Fixpoint list_remove (x : value) (l : list value) : result (list value) :=
  match l with
  | [] => Raise ValueError
  | e :: l' =>
      if py_eq e x then Ok l'
      else rbind (list_remove x l') (fun r => Ok (e :: r))
  end.

(** [l[0]] on a list of records, as in [response.choices[0]]. *)
Definition item0 {A} (l : list A) : result A :=
  match l with
  | [] => Raise IndexError
  | x :: _ => Ok x
  end.

(** [sep.join(parts)] *)
Definition join (sep : string) (parts : list string) : string :=
  String.concat sep parts.

(** [l[-n:]] *)
Definition last_n {A} (n : nat) (l : list A) : list A :=
  skipn (List.length l - n) l.

End Py.
Export Py.

Notation "'let?' x ':=' r 'in' k" := (rbind r (fun x => k))
  (at level 10, x name, r at level 100, k at level 200).

(** ** The objects exchanged with the two client libraries *)

Record FunctionCall : Type := { name : string; arguments : string }.

Record ToolCall : Type := { id : string; function : FunctionCall }.

Record ChatCompletionMessage : Type :=
  { content : option string; tool_calls : option (list ToolCall) }.

Record Choice : Type := { message : ChatCompletionMessage }.

Record ChatCompletion : Type := { choices : list Choice }.

(** An element of the [messages] list: a dict literal built by the handler,
    or the reply object of the first call appended as it is. *)
Inductive Message : Type :=
| Literal (d : value)
| Reply (msg : ChatCompletionMessage).

(** Keyword arguments of [client.chat.completions.create]; an argument that
    is not passed is [None]. *)
Record CompletionArgs : Type :=
  { model : string;
    messages : list Message;
    tools : option value;
    tool_choice : option string;
    response_format : option value }.

(** Keyword arguments of [gmaps.places_nearby]. *)
Record PlacesArgs : Type :=
  { location : float * float; radius : Z; type_ : string }.

Inductive Outbound : Type :=
| PlacesNearby (args : PlacesArgs)
| ChatCreate (args : CompletionArgs).

(** The libraries the handlers call.  [World] is whatever the services
    depend on; a call may change it and may raise. *)
Class Platform : Type :=
  { World : Type;
    json_loads : string -> result value;
    json_dumps : value -> string;
    b64encode : list byte -> string;
    places_nearby : PlacesArgs -> World -> result value * World;
    completions_create :
      CompletionArgs -> World -> result ChatCompletion * World }.

(** ** Request bodies *)

Record LocationRequest : Type := { lat : float; lng : float }.

Record ChatRequest : Type :=
  { user_message : string;
    menu_data : list (string * value);
    history : list (list (string * string));
    restaurant_name : string;
    current_order : list string }.

(** The uploaded file: [await file.read()] gives its bytes or raises. *)
Record UploadFile : Type := { read : result (list byte) }.

(** ** The handler monad: world, outbox and exceptions *)

Section Handlers.
Context {P : Platform}.

Record State : Type := { world : World; outbox : list Outbound }.

Definition M (A : Type) : Type := State -> result A * State.

Definition ret {A} (a : A) : M A := fun s => (Ok a, s).

Definition bind {A B} (m : M A) (k : A -> M B) : M B :=
  fun s =>
    match m s with
    | (Ok a, s') => k a s'
    | (Raise e, s') => (Raise e, s')
    end.

Definition lift {A} (r : result A) : M A := fun s => (r, s).

(** [try: body / except Exception as e: handler] *)
Definition try_except {A} (body : M A) (handler : exn -> M A) : M A :=
  fun s =>
    match body s with
    | (Ok a, s') => (Ok a, s')
    | (Raise e, s') => handler e s'
    end.

Definition call_places_nearby (args : PlacesArgs) : M value :=
  fun s =>
    let (r, w) := places_nearby args (world s) in
    (r, {| world := w; outbox := outbox s ++ [PlacesNearby args] |}).

Definition call_create (args : CompletionArgs) : M ChatCompletion :=
  fun s =>
    let (r, w) := completions_create args (world s) in
    (r, {| world := w; outbox := outbox s ++ [ChatCreate args] |}).

End Handlers.

Notation "x <- m ;; k" := (bind m (fun x => k))
  (at level 61, m at next level, right associativity).

(** ** Text constants *)

Definition nl : string := String "010"%char EmptyString.
Definition dq : string := String "034"%char EmptyString.

(** The extraction instruction of [scan_menu], a triple-quoted literal. *)
Definition prompt : string :=
  nl ++ "    Extract menu items from this image into JSON:" ++ nl ++
  "    {" ++ dq ++ "drinks" ++ dq ++ ": [], " ++ dq ++ "appetizers" ++ dq ++
  ": [], " ++ dq ++ "entrees" ++ dq ++ ": [], " ++ dq ++ "sides" ++ dq ++
  ": []}" ++ nl ++
  "    Include price if visible." ++ nl ++
  "    ".

(** The single tool offered to the model. *)
Definition tools_literal : value :=
  JArr [JObj
    [("type", JStr "function");
     ("function", JObj
        [("name", JStr "update_order");
         ("description", JStr "Add or remove item from order");
         ("parameters", JObj
            [("type", JStr "object");
             ("properties", JObj
                [("item_name", JObj [("type", JStr "string")]);
                 ("action", JObj [("type", JStr "string");
                                  ("enum", JArr [JStr "add"; JStr "remove"])])]);
             ("required", JArr [JStr "item_name"; JStr "action"])])])]].

Definition unknown_location : value :=
  JObj [("name", JStr "Unknown Location"); ("address", JStr "N/A")].

Definition unknown_location_error : value :=
  JObj [("name", JStr "Unknown Location (Error)"); ("address", JStr "N/A")].

Definition fallback_menu : value :=
  JObj [("drinks", JArr [JStr "Coke"; JStr "Water"]);
        ("entrees", JArr [JStr "Burger"; JStr "Salad"])].

(** [None] or the string, as a value of a response dict. *)
Definition of_optional (o : option string) : value :=
  match o with
  | Some s => JStr s
  | None => JNull
  end.

(** A history turn, a dict of strings. *)
Definition turn_dict (t : list (string * string)) : value :=
  JObj (map (fun kv => (fst kv, JStr (snd kv))) t).

(** ** The handlers *)

Section Endpoints.
Context {P : Platform}.

(** [GET /] *)
Definition health_check : value :=
  JObj [("status", JStr "System Operational"); ("president", JStr "Clinton")].

Definition places_args (loc : LocationRequest) : PlacesArgs :=
  {| location := (lat loc, lng loc); radius := 50; type_ := "restaurant" |}.

(** [POST /identify-restaurant] *)
Definition identify_restaurant (loc : LocationRequest) : M value :=
  try_except
    (places_result <- call_places_nearby (places_args loc) ;;
     results <- lift (getitem places_result (JStr "results")) ;;
     if negb (truthy results) then ret unknown_location
     else
       results <- lift (getitem places_result (JStr "results")) ;;
       place <- lift (getitem results (JInt 0)) ;;
       place_name <- lift (get place "name") ;;
       vicinity <- lift (get place "vicinity") ;;
       ret (JObj [("name", place_name); ("address", vicinity)]))
    (fun e => ret unknown_location_error).

(** [json.loads] of an optional string: [None] is a [TypeError]. *)
Definition loads_content (c : option string) : result value :=
  match c with
  | Some s => json_loads s
  | None => Raise TypeError
  end.

Definition scan_args (base64_image : string) : CompletionArgs :=
  {| model := "gpt-4o";
     messages :=
       [Literal (JObj
          [("role", JStr "user");
           ("content", JArr
              [JObj [("type", JStr "text"); ("text", JStr prompt)];
               JObj [("type", JStr "image_url");
                     ("image_url", JObj
                        [("url", JStr ("data:image/jpeg;base64," ++
                                        base64_image))])]])])];
     tools := None;
     tool_choice := None;
     response_format := Some (JObj [("type", JStr "json_object")]) |}.

(** [POST /scan-menu] *)
Definition scan_menu (file : UploadFile) : M value :=
  image_data <- lift (read file) ;;
  let base64_image := b64encode image_data in
  try_except
    (response <- call_create (scan_args base64_image) ;;
     choice <- lift (item0 (choices response)) ;;
     lift (loads_content (content (message choice))))
    (fun e => ret fallback_menu).

Definition current_order_str (request : ChatRequest) : string :=
  match current_order request with
  | [] => "Nothing yet"
  | _ => join ", " (current_order request)
  end.

Definition system_prompt (request : ChatRequest) : string :=
  nl ++ "    You are Bill Clinton dining at " ++ restaurant_name request ++
  "." ++ nl ++
  "    Current Tab: " ++ current_order_str request ++ "." ++ nl ++
  "    Menu Data: " ++ json_dumps (JObj (menu_data request)) ++ nl ++
  "    " ++ nl ++
  "    Persona: Raspy voice, southern charm, loves unhealthy food but pretends to diet." ++ nl ++
  "    Rule: Keep responses SHORT (under 2 sentences)." ++ nl ++
  "    If user wants to order, call the tool." ++ nl ++
  "    ".

Definition system_message (request : ChatRequest) : Message :=
  Literal (JObj [("role", JStr "system");
                 ("content", JStr (system_prompt request))]).

Definition user_turn (request : ChatRequest) : Message :=
  Literal (JObj [("role", JStr "user");
                 ("content", JStr (user_message request))]).

(** [messages] as it stands at the first call. *)
Definition initial_messages (request : ChatRequest) : list Message :=
  ([system_message request]
     ++ map (fun t => Literal (turn_dict t)) (last_n 6 (history request)))
    ++ [user_turn request].

Definition first_call (request : ChatRequest) : CompletionArgs :=
  {| model := "gpt-4o";
     messages := initial_messages request;
     tools := Some tools_literal;
     tool_choice := Some "auto";
     response_format := None |}.

(** The body of [for tool in msg.tool_calls]. *)
Definition tool_step (tool : ToolCall) (updated_order : list value)
  : result (list value) :=
  let? args := json_loads (arguments (function tool)) in
  let? action := getitem args (JStr "action") in
  let? updated_order :=
    (if py_eq action (JStr "add")
     then let? item := getitem args (JStr "item_name") in
          Ok (updated_order ++ [item])
     else Ok updated_order) in
  let? action := getitem args (JStr "action") in
  if py_eq action (JStr "remove") then
    let? item := getitem args (JStr "item_name") in
    if contains item updated_order then
      let? item := getitem args (JStr "item_name") in
      list_remove item updated_order
    else Ok updated_order
  else Ok updated_order.

Fixpoint for_each_tool (calls : list ToolCall) (updated_order : list value)
  : result (list value) :=
  match calls with
  | [] => Ok updated_order
  | tool :: rest =>
      let? updated_order := tool_step tool updated_order in
      for_each_tool rest updated_order
  end.

(** The synthetic tool result sent back with the second call. *)
Definition acknowledgment (tool_call_id : string) : Message :=
  Literal (JObj [("role", JStr "tool");
                 ("tool_call_id", JStr tool_call_id);
                 ("content", JStr "Order Updated.")]).

Definition second_call (request : ChatRequest) (msg : ChatCompletionMessage)
    (tool_call_id : string) : CompletionArgs :=
  {| model := "gpt-4o";
     messages :=
       (initial_messages request ++ [Reply msg])
         ++ [acknowledgment tool_call_id];
     tools := None;
     tool_choice := None;
     response_format := None |}.

Definition reply (final_text : option string) (updated_order : list value)
  : value :=
  JObj [("text", of_optional final_text);
        ("updated_order", JArr updated_order)].

(** [POST /chat].  [msg.tool_calls] is true exactly when it is a list with
    a first element. *)
Definition chat_with_bill (request : ChatRequest) : M value :=
  response <- call_create (first_call request) ;;
  choice <- lift (item0 (choices response)) ;;
  let msg := message choice in
  let final_text := content msg in
  let updated_order := map JStr (current_order request) in
  match tool_calls msg with
  | Some (tool0 :: others) =>
      updated_order <- lift (for_each_tool (tool0 :: others) updated_order) ;;
      resp2 <- call_create (second_call request msg (id tool0)) ;;
      choice2 <- lift (item0 (choices resp2)) ;;
      let final_text := content (message choice2) in
      ret (reply final_text updated_order)
  | _ => ret (reply final_text updated_order)
  end.

End Endpoints.

(** ** The order list as the specification describes it *)

(** A tool invocation: an item name and one of the two actions. *)
Inductive Action : Type := add | remove.

Record ToolInvocation : Type := { item_name : string; action : Action }.

Definition action_name (a : Action) : string :=
  match a with
  | add => "add"
  | remove => "remove"
  end.

(** Deleting the first exact match of [y], if there is one. *)
Fixpoint remove_first (y : string) (order : list string) : list string :=
  match order with
  | [] => []
  | x :: rest => if String.eqb x y then rest else x :: remove_first y rest
  end.

(** "add" appends the item name; "remove" deletes the item if present,
    else is a no-op. *)
Definition apply_invocation (order : list string) (inv : ToolInvocation)
  : list string :=
  match action inv with
  | add => order ++ [item_name inv]
  | remove => remove_first (item_name inv) order
  end.

(** ** What the services answered *)

Section Exchanges.
Context {P : Platform}.

(** The arguments of [tool] decode to a dict whose ["action"] is the string
    [act] and whose ["item_name"] is the string [item]. *)
Definition invokes (tool : ToolCall) (act item : string) : Prop :=
  exists args,
    json_loads (arguments (function tool)) = Ok args /\
    getitem args (JStr "action") = Ok (JStr act) /\
    getitem args (JStr "item_name") = Ok (JStr item).

Definition carries (tool : ToolCall) (inv : ToolInvocation) : Prop :=
  invokes tool (action_name (action inv)) (item_name inv).

(** The first model call, made in state [s], answers with [msg] as the
    message of its first choice and leaves the world as [w]. *)
Definition first_reply (request : ChatRequest) (s : State)
    (msg : ChatCompletionMessage) (w : World) : Prop :=
  exists resp others,
    completions_create (first_call request) (world s) = (Ok resp, w) /\
    choices resp = {| message := msg |} :: others.

(** The second model call, made in world [w1] with the acknowledgment of
    [tool_call_id], answers with [msg2] and leaves the world as [w2]. *)
Definition second_reply (request : ChatRequest) (msg : ChatCompletionMessage)
    (tool_call_id : string) (w1 : World) (msg2 : ChatCompletionMessage)
    (w2 : World) : Prop :=
  exists resp others,
    completions_create (second_call request msg tool_call_id) w1
      = (Ok resp, w2) /\
    choices resp = {| message := msg2 |} :: others.

(** One of the two model calls of [chat_with_bill] raises [e]: the first
    one, or the second one after the tool calls were applied. *)
Inductive model_call_raises (request : ChatRequest) (s : State) (e : exn)
  : Prop :=
| first_call_raises (w : World) :
    completions_create (first_call request) (world s) = (Raise e, w) ->
    model_call_raises request s e
| second_call_raises (msg : ChatCompletionMessage) (w1 w2 : World)
    (tool0 : ToolCall) (others : list ToolCall) (order : list value) :
    first_reply request s msg w1 ->
    tool_calls msg = Some (tool0 :: others) ->
    for_each_tool (tool0 :: others) (map JStr (current_order request))
      = Ok order ->
    completions_create (second_call request msg (id tool0)) w1
      = (Raise e, w2) ->
    model_call_raises request s e.

(** The places lookup raised, or it found no candidate. *)
Inductive lookup_fails : result value -> Prop :=
| lookup_raises (e : exn) : lookup_fails (Raise e)
| lookup_empty (places_result : value) :
    getitem places_result (JStr "results") = Ok (JArr []) ->
    lookup_fails (Ok places_result).

(** The extraction call raised, or the text it produced does not parse. *)
Inductive extraction_fails : result ChatCompletion -> Prop :=
| extraction_raises (e : exn) : extraction_fails (Raise e)
| extraction_unparseable (resp : ChatCompletion) (choice : Choice)
    (others : list Choice) (e : exn) :
    choices resp = choice :: others ->
    loads_content (content (message choice)) = Raise e ->
    extraction_fails (Ok resp).

End Exchanges.

(** ** A scripted platform for running the handlers *)

Module Fixture.

(** The places service gives one fixed answer; the model gives its
    scripted answers one after the other. *)
Record Script : Type :=
  { places_answer : result value;
    model_answers : list (result ChatCompletion) }.

Definition next_answer (w : Script) : result ChatCompletion * Script :=
  match model_answers w with
  | [] => (Raise (ServiceError "no answer left"), w)
  | r :: rest =>
      (r, {| places_answer := places_answer w; model_answers := rest |})
  end.

(** Argument text of a well-formed [update_order] call. *)
Definition args_text (act item : string) : string :=
  "{" ++ dq ++ "action" ++ dq ++ ": " ++ dq ++ act ++ dq ++ ", " ++
  dq ++ "item_name" ++ dq ++ ": " ++ dq ++ item ++ dq ++ "}".

Definition args_dict (act item : string) : value :=
  JObj [("action", JStr act); ("item_name", JStr item)].

(** The texts the decoder of the fixture knows. *)
Definition known_texts : list (string * value) :=
  [(args_text "add" "Burger", args_dict "add" "Burger");
   (args_text "remove" "Fries", args_dict "remove" "Fries");
   (args_text "remove" "Pie", args_dict "remove" "Pie");
   (args_text "flambe" "Burger", args_dict "flambe" "Burger");
   ("{}", JObj [])].

Definition loads (s : string) : result value :=
  match dict_lookup s known_texts with
  | Some v => Ok v
  | None => Raise JSONDecodeError
  end.

(** Right on the empty dict and on the empty byte string, the only inputs
    the runs below give them. *)
Definition platform : Platform :=
  {| World := Script;
     json_loads := loads;
     json_dumps := fun _ => "{}";
     b64encode := fun _ => "";
     places_nearby := fun _ w => (places_answer w, w);
     completions_create := fun _ w => next_answer w |}.

Definition call (i act item : string) : ToolCall :=
  {| id := i;
     function := {| name := "update_order"; arguments := args_text act item |} |}.

Definition says (text : option string) (calls : option (list ToolCall))
  : ChatCompletionMessage :=
  {| content := text; tool_calls := calls |}.

Definition answer (msg : ChatCompletionMessage) : result ChatCompletion :=
  Ok {| choices := [{| message := msg |}] |}.

Definition start (places : result value)
    (answers : list (result ChatCompletion)) : @State platform :=
  @Build_State platform
    {| places_answer := places; model_answers := answers |} [].

Definition little_rock : LocationRequest :=
  {| lat := 34.75%float; lng := (-92.25)%float |}.

Definition tab (order : list string) (turns : list (list (string * string)))
  : ChatRequest :=
  {| user_message := "What are you having?";
     menu_data := [];
     history := turns;
     restaurant_name := "Doe's Eat Place";
     current_order := order |}.

Definition turn (role text : string) : list (string * string) :=
  [("role", role); ("content", text)].

Definition seven_turns : list (list (string * string)) :=
  [turn "user" "t1"; turn "assistant" "t2"; turn "user" "t3";
   turn "assistant" "t4"; turn "user" "t5"; turn "assistant" "t6";
   turn "user" "t7"].

Definition add_burger : ToolCall := call "call_1" "add" "Burger".
Definition remove_fries : ToolCall := call "call_2" "remove" "Fries".
Definition remove_pie : ToolCall := call "call_3" "remove" "Pie".
Definition flambe_burger : ToolCall := call "call_4" "flambe" "Burger".

Definition confirmation : ChatCompletionMessage :=
  says (Some "Comin' right up.") None.

(** The model answers with the given tool calls, then confirms. *)
Definition ordering (calls : list ToolCall) : @State platform :=
  start (Raise (ServiceError "unused"))
    [answer (says None (Some calls)); answer confirmation].

(** What is left of the script of [ordering] after some calls. *)
Definition left_over (answers : list (result ChatCompletion)) : Script :=
  {| places_answer := Raise (ServiceError "unused");
     model_answers := answers |}.

Definition empty_upload : UploadFile := {| read := Ok [] |}.

End Fixture.

(** ** A second scripted platform, with a larger decoder *)

Module Bench.

(** An object text with one string member, and one with a second member
    given as literal text. *)
Definition member (key text : string) : string :=
  dq ++ key ++ dq ++ ": " ++ text.

Definition quoted (s : string) : string := dq ++ s ++ dq.

Definition add_without_item : string :=
  "{" ++ member "action" (quoted "add") ++ "}".

Definition add_five : string :=
  "{" ++ member "action" (quoted "add") ++ ", " ++
  member "item_name" "5" ++ "}".

Definition shrug : string :=
  "{" ++ member "action" (quoted "shrug") ++ "}".

Definition tea_menu : string :=
  "{" ++ member "drinks" ("[" ++ quoted "Tea" ++ "]") ++ "}".

Definition known_texts : list (string * value) :=
  [(add_without_item, JObj [("action", JStr "add")]);
   (add_five, JObj [("action", JStr "add"); ("item_name", JInt 5)]);
   (shrug, JObj [("action", JStr "shrug")]);
   (tea_menu, JObj [("drinks", JArr [JStr "Tea"])]);
   ("[]", JArr []);
   (Fixture.args_text "remove" "Burger", Fixture.args_dict "remove" "Burger")]
  ++ Fixture.known_texts.

Definition loads (s : string) : result value :=
  match dict_lookup s known_texts with
  | Some v => Ok v
  | None => Raise JSONDecodeError
  end.

(** As [Fixture.platform], with the larger decoder. *)
Definition platform : Platform :=
  {| World := Fixture.Script;
     json_loads := loads;
     json_dumps := fun _ => "{}";
     b64encode := fun _ => "";
     places_nearby := fun _ w => (Fixture.places_answer w, w);
     completions_create := fun _ w => Fixture.next_answer w |}.

Definition start (places : result value)
    (answers : list (result ChatCompletion)) : @State platform :=
  @Build_State platform
    {| Fixture.places_answer := places; Fixture.model_answers := answers |}
    [].

Definition tool (i text : string) : ToolCall :=
  {| id := i; function := {| name := "update_order"; arguments := text |} |}.

(** The model answers with the given tool calls, then confirms. *)
Definition ordering (calls : list ToolCall) : @State platform :=
  start (Raise (ServiceError "unused"))
    [Fixture.answer (Fixture.says None (Some calls));
     Fixture.answer Fixture.confirmation].

Definition does_place : value :=
  JObj [("name", JStr "Doe's"); ("rating", JInt 5)].

Definition found (candidates : list value) : value :=
  JObj [("status", JStr "OK"); ("results", JArr candidates)].

Definition add_five_call : ToolCall := tool "call_5" add_five.
Definition bare_add_call : ToolCall := tool "call_6" add_without_item.
Definition shrug_call : ToolCall := tool "call_7" shrug.
Definition garbled_call : ToolCall := tool "call_8" "add a pie".
Definition remove_burger : ToolCall :=
  tool "call_9" (Fixture.args_text "remove" "Burger").

(** One model answer, holding the given text. *)
Definition extracting (text : string) : @State platform :=
  start (Raise (ServiceError "unused"))
    [Fixture.answer (Fixture.says (Some text) None)].

Definition no_choice : result ChatCompletion := Ok {| choices := [] |}.

Definition aborted_upload : UploadFile :=
  {| read := Raise (ServiceError "upload aborted") |}.

End Bench.

(** ** Properties of the handlers *)

(** *** Strings in an order list *)

Lemma py_eq_JStr (a : value) (s : string) :
  py_eq a (JStr s) = true <-> a = JStr s.
Proof.
  destruct a; cbn; split; intro H; try discriminate.
  - apply String.eqb_eq in H. now subst.
  - injection H as ->. apply String.eqb_refl.
Qed.

Lemma contains_JStr (y : string) (order : list string) :
  contains (JStr y) (map JStr order) = true <-> In y order.
Proof.
  unfold contains. induction order as [| x rest IH]; cbn.
  - split; [discriminate | contradiction].
  - rewrite orb_true_iff, IH, String.eqb_eq. tauto.
Qed.

Lemma remove_first_absent (y : string) (order : list string) :
  ~ In y order -> remove_first y order = order.
Proof.
  induction order as [| x rest IH]; cbn; intro Hn; [reflexivity |].
  destruct (String.eqb_spec x y) as [-> | Hxy].
  - exfalso. apply Hn. now left.
  - f_equal. apply IH. intro Hin. apply Hn. now right.
Qed.

Lemma remove_first_split (y : string) (order : list string) :
  In y order ->
  exists before after,
    order = before ++ y :: after /\ ~ In y before /\
    remove_first y order = before ++ after.
Proof.
  induction order as [| x rest IH]; cbn; intro Hin; [contradiction |].
  destruct (String.eqb_spec x y) as [-> | Hxy].
  - exists [], rest. cbn. auto.
  - destruct Hin as [-> | Hin]; [congruence |].
    destruct (IH Hin) as (before & after & -> & Hnot & ->).
    exists (x :: before), after. cbn. repeat split.
    intros [-> | Hb]; [congruence | auto].
Qed.

Lemma count_occ_remove_first (y : string) (order : list string) :
  In y order ->
  S (count_occ string_dec (remove_first y order) y)
    = count_occ string_dec order y.
Proof.
  induction order as [| x rest IH]; cbn; intro Hin; [contradiction |].
  destruct (String.eqb_spec x y) as [-> | Hxy].
  - destruct (string_dec y y); congruence.
  - cbn. destruct (string_dec x y); [congruence |].
    destruct Hin as [-> | Hin]; [congruence | auto].
Qed.

Lemma count_occ_remove_first_other (y z : string) (order : list string) :
  z <> y ->
  count_occ string_dec (remove_first y order) z
    = count_occ string_dec order z.
Proof.
  intro Hzy. induction order as [| x rest IH]; cbn; [reflexivity |].
  destruct (String.eqb_spec x y) as [-> | Hxy].
  - destruct (string_dec y z); congruence.
  - cbn. destruct (string_dec x z); congruence.
Qed.

Lemma list_remove_JStr (y : string) (order : list string) :
  In y order ->
  list_remove (JStr y) (map JStr order)
    = Ok (map JStr (remove_first y order)).
Proof.
  induction order as [| x rest IH]; cbn; intro Hin; [contradiction |].
  destruct (String.eqb_spec x y) as [-> | Hxy]; [reflexivity |].
  destruct Hin as [-> | Hin]; [congruence |].
  rewrite (IH Hin). reflexivity.
Qed.

Section Properties.
Context {P : Platform}.

(** *** The loop over the tool calls *)

Lemma tool_step_add (tool : ToolCall) (x : string) (order : list value) :
  invokes tool "add" x -> tool_step tool order = Ok (order ++ [JStr x]).
Proof.
  intros (args & Hloads & Haction & Hitem).
  unfold tool_step. rewrite Hloads. cbn [rbind].
  rewrite Haction. cbn. rewrite Hitem. reflexivity.
Qed.

Lemma tool_step_remove (tool : ToolCall) (y : string) (order : list string) :
  invokes tool "remove" y ->
  tool_step tool (map JStr order) = Ok (map JStr (remove_first y order)).
Proof.
  intros (args & Hloads & Haction & Hitem).
  unfold tool_step. rewrite Hloads. cbn [rbind].
  rewrite Haction. cbn. rewrite Hitem. cbn [rbind].
  destruct (contains (JStr y) (map JStr order)) eqn:Hin.
  - apply contains_JStr in Hin. now apply list_remove_JStr.
  - rewrite remove_first_absent; [reflexivity |].
    intro H. apply contains_JStr in H. congruence.
Qed.

Lemma tool_step_carries (tool : ToolCall) (inv : ToolInvocation)
    (order : list string) :
  carries tool inv ->
  tool_step tool (map JStr order) = Ok (map JStr (apply_invocation order inv)).
Proof.
  unfold carries, apply_invocation. destruct (action inv); cbn; intro H.
  - rewrite (tool_step_add _ _ _ H), map_app. reflexivity.
  - now apply tool_step_remove.
Qed.

Lemma for_each_tool_carries (calls : list ToolCall)
    (invs : list ToolInvocation) :
  Forall2 carries calls invs ->
  forall order,
    for_each_tool calls (map JStr order)
      = Ok (map JStr (fold_left apply_invocation invs order)).
Proof.
  induction 1 as [| tool inv calls invs Hc _ IH]; intro order; cbn.
  - reflexivity.
  - rewrite (tool_step_carries _ _ _ Hc). cbn. apply IH.
Qed.

(** *** The two-phase exchange of [chat_with_bill] *)

Lemma chat_without_tool_calls (request : ChatRequest) (s : State)
    (msg : ChatCompletionMessage) (w : World) :
  first_reply request s msg w ->
  tool_calls msg = None \/ tool_calls msg = Some [] ->
  chat_with_bill request s
    = (Ok (reply (content msg) (map JStr (current_order request))),
       {| world := w;
          outbox := outbox s ++ [ChatCreate (first_call request)] |}).
Proof.
  intros (resp & others & Hcall & Hchoices) Hnone.
  unfold chat_with_bill, bind, call_create, lift, ret.
  rewrite Hcall, Hchoices. cbn.
  destruct Hnone as [-> | ->]; reflexivity.
Qed.

Lemma chat_with_tool_calls (request : ChatRequest) (s : State)
    (msg msg2 : ChatCompletionMessage) (w1 w2 : World)
    (tool0 : ToolCall) (others : list ToolCall) (order : list value) :
  first_reply request s msg w1 ->
  tool_calls msg = Some (tool0 :: others) ->
  for_each_tool (tool0 :: others) (map JStr (current_order request))
    = Ok order ->
  second_reply request msg (id tool0) w1 msg2 w2 ->
  chat_with_bill request s
    = (Ok (reply (content msg2) order),
       {| world := w2;
          outbox :=
            (outbox s ++ [ChatCreate (first_call request)])
              ++ [ChatCreate (second_call request msg (id tool0))] |}).
Proof.
  intros (resp & rest & Hcall & Hchoices) Hcalls Hloop
         (resp2 & rest2 & Hcall2 & Hchoices2).
  unfold chat_with_bill, bind, call_create, lift, ret.
  rewrite Hcall, Hchoices. cbn [item0 message world outbox].
  rewrite Hcalls, Hloop. cbn [world outbox].
  rewrite Hcall2, Hchoices2. reflexivity.
Qed.

Lemma chat_first_call_recorded (request : ChatRequest) (s : State) :
  exists later,
    outbox (snd (chat_with_bill request s))
      = outbox s ++ ChatCreate (first_call request) :: later.
Proof.
  unfold chat_with_bill, bind, call_create, lift, ret.
  destruct (completions_create (first_call request) (world s))
    as [[resp | e] w1]; cbn.
  2: now exists [].
  destruct (choices resp) as [| choice rest]; cbn.
  1: now exists [].
  destruct (tool_calls (message choice)) as [[| tool0 others] |]; cbn.
  1, 3: now exists [].
  destruct (rbind (tool_step tool0 _) _) as [order | e]; cbn.
  2: now exists [].
  destruct (completions_create _ w1) as [[resp2 | e] w2]; cbn.
  2: eexists; now rewrite <- app_assoc.
  destruct (choices resp2); cbn; eexists; now rewrite <- app_assoc.
Qed.

Lemma last_n_split {A} (n : nat) (l : list A) :
  n < List.length l ->
  l = firstn (List.length l - n) l ++ last_n n l /\
  List.length (last_n n l) = n /\
  firstn (List.length l - n) l <> [].
Proof.
  intro Hlen. unfold last_n. repeat split.
  - symmetry. apply firstn_skipn.
  - rewrite length_skipn. lia.
  - intro Hnil. apply (f_equal (@List.length A)) in Hnil.
    rewrite length_firstn in Hnil. cbn in Hnil. lia.
Qed.

Lemma turn_dict_inj (t t' : list (string * string)) :
  turn_dict t = turn_dict t' -> t = t'.
Proof.
  unfold turn_dict. intro H. injection H as H.
  revert t' H. induction t as [| [k v] t IH]; intros [| [k' v'] t'] H;
    cbn in H; try discriminate; [reflexivity |].
  injection H as -> -> H. f_equal. now apply IH.
Qed.

Lemma for_each_tool_app (before after : list ToolCall) (order : list value) :
  for_each_tool (before ++ after) order
    = let? order' := for_each_tool before order in
      for_each_tool after order'.
Proof.
  revert order. induction before as [| tool before IH]; intro order; cbn.
  - reflexivity.
  - destruct (tool_step tool order) as [order' | e]; cbn; [apply IH | easy].
Qed.

(** *** The Conversational Order Agent *)

(** C1: when the first response carries tool invocations (two or more, or
    just one), every one of them is applied to the copy of the order list,
    in the order the model returned them; the second model call receives
    the conversation extended by the assistant's message and exactly one
    acknowledgment, which carries the identifier of the first invocation;
    and the text returned is the text of the second call. *)
Theorem chat_applies_all_acknowledges_first
    (request : ChatRequest) (s : State)
    (msg msg2 : ChatCompletionMessage) (w1 w2 : World)
    (tool0 : ToolCall) (others : list ToolCall)
    (invs : list ToolInvocation) :
  first_reply request s msg w1 ->
  tool_calls msg = Some (tool0 :: others) ->
  Forall2 carries (tool0 :: others) invs ->
  second_reply request msg (id tool0) w1 msg2 w2 ->
  chat_with_bill request s
    = (Ok (JObj
             [("text", of_optional (content msg2));
              ("updated_order",
               JArr (map JStr (fold_left apply_invocation invs
                                 (current_order request))))]),
       {| world := w2;
          outbox :=
            outbox s ++
            [ChatCreate (first_call request);
             ChatCreate
               {| model := "gpt-4o";
                  messages :=
                    initial_messages request ++
                    [Reply msg;
                     Literal (JObj [("role", JStr "tool");
                                    ("tool_call_id", JStr (id tool0));
                                    ("content", JStr "Order Updated.")])];
                  tools := None;
                  tool_choice := None;
                  response_format := None |}] |}).
Proof.
  intros Hfirst Hcalls Hcarried Hsecond.
  rewrite (chat_with_tool_calls request s msg msg2 w1 w2 tool0 others
             _ Hfirst Hcalls (for_each_tool_carries _ _ Hcarried _) Hsecond).
  unfold reply, second_call, acknowledgment.
  rewrite <- !app_assoc. reflexivity.
Qed.

(** C2: with a current order of just "Fries" and a first response that
    invokes the tool twice, add "Burger" and then remove "Fries", the
    handler returns the order ["Burger"]. *)
Theorem chat_add_burger_remove_fries
    (request : ChatRequest) (s : State)
    (msg msg2 : ChatCompletionMessage) (w1 w2 : World)
    (tool1 tool2 : ToolCall) :
  current_order request = ["Fries"] ->
  first_reply request s msg w1 ->
  tool_calls msg = Some [tool1; tool2] ->
  invokes tool1 "add" "Burger" ->
  invokes tool2 "remove" "Fries" ->
  second_reply request msg (id tool1) w1 msg2 w2 ->
  fst (chat_with_bill request s)
    = Ok (JObj [("text", of_optional (content msg2));
                ("updated_order", JArr [JStr "Burger"])]).
Proof.
  intros Horder Hfirst Hcalls Hadd Hremove Hsecond.
  assert (Hloop :
    for_each_tool [tool1; tool2] (map JStr (current_order request))
      = Ok [JStr "Burger"]).
  { rewrite Horder. cbn [for_each_tool].
    rewrite (tool_step_add _ _ _ Hadd). cbn [rbind].
    change (map JStr ["Fries"] ++ [JStr "Burger"])
      with (map JStr ["Fries"; "Burger"]).
    rewrite (tool_step_remove _ _ _ Hremove). reflexivity. }
  rewrite (chat_with_tool_calls request s msg msg2 w1 w2 tool1 [tool2]
             _ Hfirst Hcalls Hloop Hsecond).
  reflexivity.
Qed.

(** C3: when the first response carries no tool invocation, the handler
    returns the current order as it received it, same elements in the same
    order, together with the text of the first call; the first call is the
    only call it makes. *)
Theorem chat_no_invocation_keeps_order
    (request : ChatRequest) (s : State)
    (msg : ChatCompletionMessage) (w : World) :
  first_reply request s msg w ->
  tool_calls msg = None \/ tool_calls msg = Some [] ->
  chat_with_bill request s
    = (Ok (JObj [("text", of_optional (content msg));
                 ("updated_order", JArr (map JStr (current_order request)))]),
       {| world := w;
          outbox := outbox s ++ [ChatCreate (first_call request)] |}).
Proof.
  intros Hfirst Hnone.
  now rewrite (chat_without_tool_calls request s msg w Hfirst Hnone).
Qed.

(** C4: a first response with exactly one invocation, of action "add" and
    item name [X], gives back the current order with [X] appended once at
    the end, whether or not [X] was already in it. *)
Theorem chat_single_add_appends
    (request : ChatRequest) (s : State)
    (msg msg2 : ChatCompletionMessage) (w1 w2 : World)
    (tool : ToolCall) (X : string) :
  first_reply request s msg w1 ->
  tool_calls msg = Some [tool] ->
  invokes tool "add" X ->
  second_reply request msg (id tool) w1 msg2 w2 ->
  fst (chat_with_bill request s)
    = Ok (JObj [("text", of_optional (content msg2));
                ("updated_order",
                 JArr (map JStr (current_order request ++ [X])))]).
Proof.
  intros Hfirst Hcalls Hadd Hsecond.
  assert (Hloop :
    for_each_tool [tool] (map JStr (current_order request))
      = Ok (map JStr (current_order request ++ [X]))).
  { cbn [for_each_tool]. rewrite (tool_step_add _ _ _ Hadd), map_app.
    reflexivity. }
  rewrite (chat_with_tool_calls request s msg msg2 w1 w2 tool []
             _ Hfirst Hcalls Hloop Hsecond).
  reflexivity.
Qed.

(** C5: a first response with exactly one invocation, of action "remove"
    and item name [Y], gives back an order that, when [Y] occurs in the
    current order, is the current order without its first (leftmost)
    occurrence of [Y], so with exactly one occurrence of [Y] fewer, and
    that, when [Y] does not occur, is the current order unchanged. *)
Theorem chat_single_remove_deletes_first
    (request : ChatRequest) (s : State)
    (msg msg2 : ChatCompletionMessage) (w1 w2 : World)
    (tool : ToolCall) (Y : string) :
  first_reply request s msg w1 ->
  tool_calls msg = Some [tool] ->
  invokes tool "remove" Y ->
  second_reply request msg (id tool) w1 msg2 w2 ->
  exists updated,
    fst (chat_with_bill request s)
      = Ok (JObj [("text", of_optional (content msg2));
                  ("updated_order", JArr (map JStr updated))]) /\
    (In Y (current_order request) ->
     (exists before after,
         current_order request = before ++ Y :: after /\
         ~ In Y before /\
         updated = before ++ after) /\
     S (count_occ string_dec updated Y)
       = count_occ string_dec (current_order request) Y) /\
    (~ In Y (current_order request) -> updated = current_order request).
Proof.
  intros Hfirst Hcalls Hremove Hsecond.
  exists (remove_first Y (current_order request)).
  assert (Hloop :
    for_each_tool [tool] (map JStr (current_order request))
      = Ok (map JStr (remove_first Y (current_order request)))).
  { cbn [for_each_tool]. rewrite (tool_step_remove _ _ _ Hremove).
    reflexivity. }
  rewrite (chat_with_tool_calls request s msg msg2 w1 w2 tool []
             _ Hfirst Hcalls Hloop Hsecond).
  split; [reflexivity |]. split.
  - intro Hin. split.
    + destruct (remove_first_split Y _ Hin) as (before & after & H1 & H2 & H3).
      exists before, after. auto.
    + now apply count_occ_remove_first.
  - apply remove_first_absent.
Qed.

(** C6: when the history has more than 6 turns, the messages of the first
    model call are the system prompt, then the last 6 turns of the history
    in their order, then the new user message, and nothing else: a turn
    before the last 6 is not among them (unless it is equal to one that
    is).  The handler does send this call, before anything else. *)
Theorem chat_forwards_last_six_turns (request : ChatRequest) (s : State) :
  6 < List.length (history request) ->
  exists earlier recent,
    history request = earlier ++ recent /\
    List.length recent = 6 /\
    earlier <> [] /\
    messages (first_call request)
      = Literal (JObj [("role", JStr "system");
                       ("content", JStr (system_prompt request))])
        :: map (fun t => Literal (turn_dict t)) recent
        ++ [Literal (JObj [("role", JStr "user");
                           ("content", JStr (user_message request))])] /\
    (forall t,
        In (Literal (turn_dict t)) (messages (first_call request)) ->
        In t recent \/
        Literal (turn_dict t) = system_message request \/
        Literal (turn_dict t) = user_turn request) /\
    (exists later,
        outbox (snd (chat_with_bill request s))
          = outbox s ++ ChatCreate (first_call request) :: later).
Proof.
  intro Hlen.
  destruct (last_n_split 6 (history request) Hlen) as (Hsplit & Hsix & Hne).
  exists (firstn (List.length (history request) - 6) (history request)),
         (last_n 6 (history request)).
  repeat split; try assumption.
  - intros t. cbn [first_call messages]. unfold initial_messages.
    rewrite !in_app_iff. cbn [In]. rewrite in_map_iff.
    intros [[[H | []] | (t' & H & Hin)] | [H | []]].
    + right. left. now rewrite H.
    + left. assert (Ht : t' = t) by (apply turn_dict_inj; congruence).
      now subst.
    + right. right. now rewrite H.
  - apply chat_first_call_recorded.
Qed.

(** C9: the Conversational Order Agent handles no exception: when the
    first model call raises, or the second one does, the handler raises
    that same exception and returns no value. *)
Theorem chat_model_failure_propagates
    (request : ChatRequest) (s : State) (e : exn) :
  model_call_raises request s e ->
  fst (chat_with_bill request s) = Raise e.
Proof.
  intros [w Hcall | msg w1 w2 tool0 others order Hfirst Hcalls Hloop Hcall2];
    unfold chat_with_bill, bind, call_create, lift, ret.
  - now rewrite Hcall.
  - destruct Hfirst as (resp & rest & Hcall & Hchoices).
    rewrite Hcall, Hchoices. cbn [item0 message world outbox].
    rewrite Hcalls, Hloop. cbn [world outbox].
    now rewrite Hcall2.
Qed.

(** C10: a tool invocation whose arguments decode to a dict holding both
    keys, with an action that is neither "add" nor "remove", is skipped:
    the loop body returns the working order list as it was and raises
    nothing, so the loop goes on as if the invocation were not there. *)
Theorem tool_step_ignores_other_actions
    (tool : ToolCall) (args act item : value) (order : list value) :
  json_loads (arguments (function tool)) = Ok args ->
  getitem args (JStr "action") = Ok act ->
  getitem args (JStr "item_name") = Ok item ->
  act <> JStr "add" ->
  act <> JStr "remove" ->
  tool_step tool order = Ok order /\
  (forall before after start,
      for_each_tool (before ++ tool :: after) start
        = for_each_tool (before ++ after) start).
Proof.
  intros Hloads Haction Hitem Hadd Hremove.
  assert (Hstep : forall o, tool_step tool o = Ok o).
  { intro o. unfold tool_step. rewrite Hloads. cbn [rbind].
    rewrite Haction. cbn [rbind].
    destruct (py_eq act (JStr "add")) eqn:E1;
      [apply py_eq_JStr in E1; contradiction |].
    cbn [rbind].
    destruct (py_eq act (JStr "remove")) eqn:E2;
      [apply py_eq_JStr in E2; contradiction |].
    reflexivity. }
  split; [apply Hstep |].
  intros before after start. rewrite !for_each_tool_app.
  destruct (for_each_tool before start) as [o | e]; cbn; [| reflexivity].
  now rewrite Hstep.
Qed.

(** *** The Menu Extractor *)

Lemma scan_menu_returns (file : UploadFile) (image_data : list byte)
    (s : State) :
  read file = Ok image_data ->
  exists v, fst (scan_menu file s) = Ok v.
Proof.
  intro Hread.
  unfold scan_menu, try_except, bind, call_create, lift, ret.
  rewrite Hread.
  destruct (completions_create _ (world s)) as [[resp | e] w]; cbn.
  2: now eexists.
  destruct (choices resp) as [| choice rest]; cbn.
  1: now eexists.
  destruct (loads_content (content (message choice))); now eexists.
Qed.

(** C8: once the image is read, when the extraction call raises or the
    text it returns does not parse as JSON, the Menu Extractor returns the
    fixed fallback dict: the two drinks and the two entrees, and no
    "appetizers" and no "sides" key; and whatever the extraction call
    does, the handler returns a value and never raises. *)
Theorem scan_menu_falls_back
    (file : UploadFile) (image_data : list byte) (s : State)
    (r : result ChatCompletion) (w : World) :
  read file = Ok image_data ->
  completions_create (scan_args (b64encode image_data)) (world s) = (r, w) ->
  extraction_fails r ->
  fst (scan_menu file s)
    = Ok (JObj [("drinks", JArr [JStr "Coke"; JStr "Water"]);
                ("entrees", JArr [JStr "Burger"; JStr "Salad"])]) /\
  (forall s', exists v, fst (scan_menu file s') = Ok v).
Proof.
  intros Hread Hcall Hfail. split.
  2: intro s'; exact (scan_menu_returns file image_data s' Hread).
  unfold scan_menu, try_except, bind, call_create, lift, ret.
  rewrite Hread, Hcall.
  inversion Hfail as [e | resp choice rest e Hchoices Hparse]; subst; cbn.
  - reflexivity.
  - rewrite Hchoices. cbn. rewrite Hparse. reflexivity.
Qed.

(** *** The Location Resolver *)

Lemma identify_restaurant_returns (loc : LocationRequest) (s : State) :
  exists v, fst (identify_restaurant loc s) = Ok v.
Proof.
  unfold identify_restaurant, try_except, bind, call_places_nearby, lift, ret.
  destruct (places_nearby _ (world s)) as [[places_result | e] w]; cbn.
  2: now eexists.
  destruct (getitem places_result (JStr "results")) as [results | e]; cbn.
  2: now eexists.
  destruct (truthy results); cbn.
  2: now eexists.
  destruct (getitem results (JInt 0)) as [place | e]; cbn.
  2: now eexists.
  destruct (get place "name") as [place_name | e]; cbn.
  2: now eexists.
  destruct (get place "vicinity") as [vicinity | e]; cbn; now eexists.
Qed.

(** C7: when the places lookup raises or finds no candidate, the Location
    Resolver answers with a dict whose name starts with "Unknown Location"
    and whose address is "N/A"; and whatever the lookup does, the handler
    returns a value and never raises. *)
Theorem identify_restaurant_fail_soft
    (loc : LocationRequest) (s : State) (r : result value) (w : World) :
  places_nearby (places_args loc) (world s) = (r, w) ->
  lookup_fails r ->
  (exists shown,
      fst (identify_restaurant loc s)
        = Ok (JObj [("name", JStr shown); ("address", JStr "N/A")]) /\
      prefix "Unknown Location" shown = true) /\
  (forall loc' s', exists v, fst (identify_restaurant loc' s') = Ok v).
Proof.
  intros Hcall Hfail. split.
  2: exact identify_restaurant_returns.
  unfold identify_restaurant, try_except, bind, call_places_nearby, lift, ret.
  rewrite Hcall.
  inversion Hfail as [e | places_result Hempty]; subst; cbn.
  - exists "Unknown Location (Error)". split; reflexivity.
  - rewrite Hempty. cbn. exists "Unknown Location". split; reflexivity.
Qed.

End Properties.

(** ** Further properties of the handlers *)

Lemma getitem_first (x : value) (rest : list value) :
  getitem (JArr (x :: rest)) (JInt 0) = Ok x.
Proof.
  unfold getitem, as_int, seq_index. cbn. reflexivity.
Qed.

Lemma contains_list_remove (x : value) (l : list value) :
  contains x l = true -> exists l', list_remove x l = Ok l'.
Proof.
  unfold contains. induction l as [| e l IH]; cbn; [discriminate |].
  destruct (py_eq e x); cbn; intro H.
  - now eexists.
  - destruct (IH H) as (l' & ->). cbn. now eexists.
Qed.

Lemma list_remove_subset (x : value) (l l' : list value) :
  list_remove x l = Ok l' -> forall v, In v l' -> In v l.
Proof.
  revert l'. induction l as [| e l IH]; cbn; intros l' H v Hin.
  - discriminate.
  - destruct (py_eq e x).
    + injection H as <-. now right.
    + destruct (list_remove x l) as [r |]; cbn in H; [| discriminate].
      injection H as <-. destruct Hin as [<- | Hin]; [now left |].
      right. now apply (IH r).
Qed.

Lemma list_remove_length (x : value) (l l' : list value) :
  list_remove x l = Ok l' -> List.length l = S (List.length l').
Proof.
  revert l'. induction l as [| e l IH]; cbn; intros l' H.
  - discriminate.
  - destruct (py_eq e x).
    + now injection H as <-.
    + destruct (list_remove x l) as [r |]; cbn in H; [| discriminate].
      injection H as <-. cbn. f_equal. now apply IH.
Qed.


Section Further.
Context {P : Platform}.

(** *** The Location Resolver *)

(** X1: when the lookup finds candidates and the first one is a dict, the
    answer is made of that candidate alone: its ["name"] and its
    ["vicinity"], each [None] when the key is missing.  The candidates
    after the first play no part. *)
Theorem identify_restaurant_first_candidate
    (loc : LocationRequest) (s : State) (places_result : value) (w : World)
    (place : list (string * value)) (others : list value) :
  places_nearby (places_args loc) (world s) = (Ok places_result, w) ->
  getitem places_result (JStr "results") = Ok (JArr (JObj place :: others)) ->
  fst (identify_restaurant loc s)
    = Ok (JObj [("name",
                 match dict_lookup "name" place with
                 | Some v => v
                 | None => JNull
                 end);
                ("address",
                 match dict_lookup "vicinity" place with
                 | Some v => v
                 | None => JNull
                 end)]).
Proof.
  intros Hcall Hresults.
  unfold identify_restaurant, try_except, bind, call_places_nearby, lift, ret.
  rewrite Hcall. cbn. rewrite Hresults. cbn [truthy negb].
  rewrite getitem_first. cbn.
  destruct (dict_lookup "name" place), (dict_lookup "vicinity" place);
    reflexivity.
Qed.

(** X2: whatever the places service does, the answer of the Location Resolver
    is a dict with the two keys "name" and "address", in that order. *)
Theorem identify_restaurant_answer_shape
    (loc : LocationRequest) (s : State) :
  exists shown address,
    fst (identify_restaurant loc s)
      = Ok (JObj [("name", shown); ("address", address)]).
Proof.
  unfold identify_restaurant, try_except, bind, call_places_nearby, lift, ret.
  destruct (places_nearby _ (world s)) as [[places_result | e] w]; cbn.
  2: now do 2 eexists.
  destruct (getitem places_result (JStr "results")) as [results | e]; cbn.
  2: now do 2 eexists.
  destruct (truthy results); cbn.
  2: now do 2 eexists.
  destruct (getitem results (JInt 0)) as [place | e]; cbn.
  2: now do 2 eexists.
  destruct (get place "name") as [shown | e]; cbn.
  2: now do 2 eexists.
  destruct (get place "vicinity") as [vicinity | e]; cbn; now do 2 eexists.
Qed.

(** X3: the Location Resolver makes exactly one outbound call, whatever its
    outcome: the places query at the request's coordinates with radius 50
    and type "restaurant".  It never calls the model, and it leaves the
    world as that one call left it. *)
Theorem identify_restaurant_one_query (loc : LocationRequest) (s : State) :
  snd (identify_restaurant loc s)
    = {| world :=
           snd (places_nearby
                  {| location := (lat loc, lng loc); radius := 50;
                     type_ := "restaurant" |} (world s));
         outbox :=
           outbox s ++
           [PlacesNearby {| location := (lat loc, lng loc); radius := 50;
                            type_ := "restaurant" |}] |}.
Proof.
  unfold identify_restaurant, try_except, bind, call_places_nearby, lift, ret.
  fold (places_args loc).
  destruct (places_nearby _ (world s)) as [[places_result | e] w]; cbn.
  2: reflexivity.
  destruct (getitem places_result (JStr "results")) as [results | e]; cbn.
  2: reflexivity.
  destruct (truthy results); cbn.
  2: reflexivity.
  destruct (getitem results (JInt 0)) as [place | e]; cbn.
  2: reflexivity.
  destruct (get place "name") as [shown | e]; cbn.
  2: reflexivity.
  destruct (get place "vicinity") as [vicinity | e]; reflexivity.
Qed.

(** X4: a lookup result the handler cannot read is masked like a failed call:
    when ["results"] cannot be taken from it (the key is missing, or it is
    not a dict), or when the first candidate is not a dict, the answer is
    the "Unknown Location (Error)" sentinel. *)
Theorem identify_restaurant_masks_malformed
    (loc : LocationRequest) (s : State) (places_result : value) (w : World) :
  places_nearby (places_args loc) (world s) = (Ok places_result, w) ->
  (exists e, getitem places_result (JStr "results") = Raise e) \/
  (exists candidate others,
      getitem places_result (JStr "results")
        = Ok (JArr (candidate :: others)) /\
      forall d, candidate <> JObj d) ->
  fst (identify_restaurant loc s)
    = Ok (JObj [("name", JStr "Unknown Location (Error)");
                ("address", JStr "N/A")]).
Proof.
  intros Hcall Hbad.
  unfold identify_restaurant, try_except, bind, call_places_nearby, lift, ret.
  rewrite Hcall. cbn.
  destruct Hbad as [(e & Hresults) | (candidate & others & Hresults & Hnot)];
    rewrite Hresults; cbn [truthy negb]; [reflexivity |].
  rewrite getitem_first. cbn.
  destruct candidate; try reflexivity.
  exfalso. now apply (Hnot fields).
Qed.

(** *** The Menu Extractor *)

(** X5: when the extraction call answers and the text of its first choice
    parses, the Menu Extractor returns the parsed value as it is, whatever
    it is: nothing checks that it is a dict or which keys it has. *)
Theorem scan_menu_returns_parsed
    (file : UploadFile) (image_data : list byte) (s : State)
    (resp : ChatCompletion) (w : World) (choice : Choice)
    (others : list Choice) (text : string) (menu : value) :
  read file = Ok image_data ->
  completions_create (scan_args (b64encode image_data)) (world s)
    = (Ok resp, w) ->
  choices resp = choice :: others ->
  content (message choice) = Some text ->
  json_loads text = Ok menu ->
  fst (scan_menu file s) = Ok menu.
Proof.
  intros Hread Hcall Hchoices Hcontent Hparse.
  unfold scan_menu, try_except, bind, call_create, lift, ret.
  rewrite Hread, Hcall. cbn. rewrite Hchoices. cbn.
  rewrite Hcontent. cbn. now rewrite Hparse.
Qed.

(** X6: reading the upload happens before the [try] block: when it raises,
    the Menu Extractor raises the same exception, sends nothing and returns
    no fallback. *)
Theorem scan_menu_read_failure_propagates
    (file : UploadFile) (s : State) (e : exn) :
  read file = Raise e ->
  scan_menu file s = (Raise e, s).
Proof.
  intro Hread. unfold scan_menu, bind, lift. now rewrite Hread.
Qed.

(** X7: once the upload is read, the Menu Extractor makes exactly one outbound
    call, whatever its outcome: a "gpt-4o" completion whose single user
    message holds the extraction prompt and the image as a base64 JPEG data
    URL, asking for a JSON object and offering no tool. *)
Theorem scan_menu_one_request
    (file : UploadFile) (image_data : list byte) (s : State) :
  read file = Ok image_data ->
  outbox (snd (scan_menu file s))
    = outbox s ++
      [ChatCreate
         {| model := "gpt-4o";
            messages :=
              [Literal (JObj
                 [("role", JStr "user");
                  ("content", JArr
                     [JObj [("type", JStr "text"); ("text", JStr prompt)];
                      JObj [("type", JStr "image_url");
                            ("image_url", JObj
                               [("url",
                                 JStr ("data:image/jpeg;base64," ++
                                       b64encode image_data))])]])])];
            tools := None;
            tool_choice := None;
            response_format := Some (JObj [("type", JStr "json_object")]) |}].
Proof.
  intro Hread.
  unfold scan_menu, try_except, bind, call_create, lift, ret.
  rewrite Hread. fold (scan_args (b64encode image_data)).
  destruct (completions_create _ (world s)) as [[resp | e] w]; cbn.
  2: reflexivity.
  destruct (choices resp) as [| choice rest]; cbn.
  1: reflexivity.
  destruct (loads_content (content (message choice))); reflexivity.
Qed.

(** X8: an answer of the extraction call that has no choice at all is masked
    too: the Menu Extractor returns the fallback menu. *)
Theorem scan_menu_masks_empty_choices
    (file : UploadFile) (image_data : list byte) (s : State)
    (resp : ChatCompletion) (w : World) :
  read file = Ok image_data ->
  completions_create (scan_args (b64encode image_data)) (world s)
    = (Ok resp, w) ->
  choices resp = [] ->
  fst (scan_menu file s) = Ok fallback_menu.
Proof.
  intros Hread Hcall Hchoices.
  unfold scan_menu, try_except, bind, call_create, lift, ret.
  rewrite Hread, Hcall. cbn. now rewrite Hchoices.
Qed.

(** X9: what the Menu Extractor returns is either the fallback menu or a value
    that [json.loads] gave for the text of the first choice of the
    extraction call; it returns nothing else. *)
Theorem scan_menu_answer_origin
    (file : UploadFile) (s : State) (menu : value) :
  fst (scan_menu file s) = Ok menu ->
  menu = fallback_menu \/
  exists image_data resp w choice others text,
    read file = Ok image_data /\
    completions_create (scan_args (b64encode image_data)) (world s)
      = (Ok resp, w) /\
    choices resp = choice :: others /\
    content (message choice) = Some text /\
    json_loads text = Ok menu.
Proof.
  unfold scan_menu, try_except, bind, call_create, lift, ret.
  destruct (read file) as [image_data | e] eqn:Hread; [| discriminate].
  destruct (completions_create _ (world s)) as [[resp | e] w] eqn:Hcall; cbn.
  2: intro H; injection H as <-; now left.
  destruct (choices resp) as [| choice rest] eqn:Hchoices; cbn.
  1: intro H; injection H as <-; now left.
  destruct (content (message choice)) as [text |] eqn:Hcontent; cbn.
  2: intro H; injection H as <-; now left.
  destruct (json_loads text) as [v | e] eqn:Hparse; cbn;
    intro H; injection H as <-; [right | now left].
  exists image_data, resp, w, choice, rest, text. auto.
Qed.

(** *** The loop body of the Conversational Order Agent *)

(** The outcomes of the loop body, by what the arguments hold. *)
Lemma tool_step_outcome (tool : ToolCall) (order : list value) :
  match json_loads (arguments (function tool)) with
  | Raise e => tool_step tool order = Raise e
  | Ok args =>
      match getitem args (JStr "action") with
      | Raise e => tool_step tool order = Raise e
      | Ok act =>
          if py_eq act (JStr "add") then
            match getitem args (JStr "item_name") with
            | Raise e => tool_step tool order = Raise e
            | Ok item => tool_step tool order = Ok (order ++ [item])
            end
          else if py_eq act (JStr "remove") then
            match getitem args (JStr "item_name") with
            | Raise e => tool_step tool order = Raise e
            | Ok item =>
                if contains item order then
                  exists order',
                    list_remove item order = Ok order' /\
                    tool_step tool order = Ok order'
                else tool_step tool order = Ok order
            end
          else tool_step tool order = Ok order
      end
  end.
Proof.
  unfold tool_step.
  destruct (json_loads (arguments (function tool))) as [args | e]; cbn;
    [| reflexivity].
  destruct (getitem args (JStr "action")) as [act | e]; cbn; [| reflexivity].
  destruct (py_eq act (JStr "add")) eqn:Eadd.
  - apply py_eq_JStr in Eadd. subst act.
    destruct (getitem args (JStr "item_name")); reflexivity.
  - cbn. destruct (py_eq act (JStr "remove")); [| reflexivity].
    destruct (getitem args (JStr "item_name")) as [item | e]; cbn;
      [| reflexivity].
    destruct (contains item order) eqn:Ein; [| reflexivity].
    destruct (contains_list_remove _ _ Ein) as (order' & Hrm).
    exists order'. now rewrite Hrm.
Qed.

(** X10: an "add" appends whatever value ["item_name"] holds, a string or not:
    nothing checks its type, so the order returned to the caller can hold
    values that are not strings. *)
Theorem tool_step_add_any_value
    (tool : ToolCall) (args item : value) (order : list value) :
  json_loads (arguments (function tool)) = Ok args ->
  getitem args (JStr "action") = Ok (JStr "add") ->
  getitem args (JStr "item_name") = Ok item ->
  tool_step tool order = Ok (order ++ [item]).
Proof.
  intros Hloads Haction Hitem.
  pose proof (tool_step_outcome tool order) as H.
  rewrite Hloads, Haction, Hitem in H. exact H.
Qed.

(** X11: an action other than "add" and "remove" is skipped without looking at
    ["item_name"]: the invocation is ignored even when that key is
    missing. *)
Theorem tool_step_other_action_reads_no_item
    (tool : ToolCall) (args act : value) (order : list value) :
  json_loads (arguments (function tool)) = Ok args ->
  getitem args (JStr "action") = Ok act ->
  act <> JStr "add" ->
  act <> JStr "remove" ->
  tool_step tool order = Ok order.
Proof.
  intros Hloads Haction Hadd Hremove.
  pose proof (tool_step_outcome tool order) as H.
  rewrite Hloads, Haction in H.
  destruct (py_eq act (JStr "add")) eqn:E1;
    [apply py_eq_JStr in E1; contradiction |].
  destruct (py_eq act (JStr "remove")) eqn:E2;
    [apply py_eq_JStr in E2; contradiction |].
  exact H.
Qed.

(** X12: an "add" or a "remove" whose arguments give no ["item_name"] raises
    the exception of that lookup (a [KeyError] for a dict without the
    key), whatever the order list holds. *)
Theorem tool_step_missing_item_raises
    (tool : ToolCall) (args : value) (act : string) (e : exn)
    (order : list value) :
  json_loads (arguments (function tool)) = Ok args ->
  getitem args (JStr "action") = Ok (JStr act) ->
  act = "add" \/ act = "remove" ->
  getitem args (JStr "item_name") = Raise e ->
  tool_step tool order = Raise e.
Proof.
  intros Hloads Haction Hact Hitem.
  pose proof (tool_step_outcome tool order) as H.
  rewrite Hloads, Haction, Hitem in H.
  destruct Hact as [-> | ->]; exact H.
Qed.

(** X13: once the arguments decode, the loop body fails only on one of its two
    lookups, ["action"] or ["item_name"]: the membership test before
    [remove] keeps [list.remove] from ever raising. *)
Theorem tool_step_fails_only_on_lookup
    (tool : ToolCall) (args : value) (order : list value) (e : exn) :
  json_loads (arguments (function tool)) = Ok args ->
  tool_step tool order = Raise e ->
  getitem args (JStr "action") = Raise e \/
  getitem args (JStr "item_name") = Raise e.
Proof.
  intros Hloads Hfail.
  pose proof (tool_step_outcome tool order) as H.
  rewrite Hloads in H.
  destruct (getitem args (JStr "action")) as [act | e1].
  2: left; congruence.
  destruct (py_eq act (JStr "add")).
  - destruct (getitem args (JStr "item_name")) as [item | e2].
    + congruence.
    + right. congruence.
  - destruct (py_eq act (JStr "remove")); [| congruence].
    destruct (getitem args (JStr "item_name")) as [item | e2].
    + destruct (contains item order); [| congruence].
      destruct H as (order' & _ & H). congruence.
    + right. congruence.
Qed.

Lemma tool_step_provenance (tool : ToolCall) (order order' : list value) :
  tool_step tool order = Ok order' ->
  forall v, In v order' ->
    In v order \/
    exists args,
      json_loads (arguments (function tool)) = Ok args /\
      getitem args (JStr "action") = Ok (JStr "add") /\
      getitem args (JStr "item_name") = Ok v.
Proof.
  intros Hstep v Hin.
  pose proof (tool_step_outcome tool order) as H.
  destruct (json_loads (arguments (function tool))) as [args | e] eqn:Hloads;
    [| congruence].
  destruct (getitem args (JStr "action")) as [act | e] eqn:Haction;
    [| congruence].
  destruct (py_eq act (JStr "add")) eqn:Eadd.
  - apply py_eq_JStr in Eadd. subst act.
    destruct (getitem args (JStr "item_name")) as [item | e] eqn:Hitem;
      [| congruence].
    assert (order' = order ++ [item]) as -> by congruence.
    apply in_app_or in Hin. destruct Hin as [Hin | [<- | []]]; [now left |].
    right. exists args. auto.
  - left. destruct (py_eq act (JStr "remove")).
    + destruct (getitem args (JStr "item_name")) as [item | e];
        [| congruence].
      destruct (contains item order).
      * destruct H as (o & Hrm & H).
        assert (order' = o) as -> by congruence.
        now apply (list_remove_subset _ _ _ Hrm).
      * congruence.
    + congruence.
Qed.

Lemma tool_step_length (tool : ToolCall) (order order' : list value) :
  tool_step tool order = Ok order' ->
  List.length order' <= S (List.length order) /\
  List.length order <= S (List.length order').
Proof.
  intros Hstep.
  pose proof (tool_step_outcome tool order) as H.
  destruct (json_loads (arguments (function tool))) as [args | e];
    [| congruence].
  destruct (getitem args (JStr "action")) as [act | e]; [| congruence].
  destruct (py_eq act (JStr "add")).
  - destruct (getitem args (JStr "item_name")) as [item | e]; [| congruence].
    assert (order' = order ++ [item]) as -> by congruence.
    rewrite length_app. cbn. lia.
  - destruct (py_eq act (JStr "remove")).
    + destruct (getitem args (JStr "item_name")) as [item | e];
        [| congruence].
      destruct (contains item order).
      * destruct H as (o & Hrm & H).
        assert (order' = o) as -> by congruence.
        apply list_remove_length in Hrm. lia.
      * assert (order' = order) as -> by congruence. lia.
    + assert (order' = order) as -> by congruence. lia.
Qed.

(** *** The loop over the tool calls *)

(** X14: the loop invents nothing: every value of the order list it ends with
    was in the list it started from, or is the ["item_name"] of one of the
    calls whose action is "add". *)
Theorem for_each_tool_provenance
    (calls : list ToolCall) (order order' : list value) :
  for_each_tool calls order = Ok order' ->
  forall v, In v order' ->
    In v order \/
    exists tool args,
      In tool calls /\
      json_loads (arguments (function tool)) = Ok args /\
      getitem args (JStr "action") = Ok (JStr "add") /\
      getitem args (JStr "item_name") = Ok v.
Proof.
  revert order. induction calls as [| tool calls IH]; cbn; intros order H v Hin.
  - left. congruence.
  - destruct (tool_step tool order) as [mid | e] eqn:Hstep; cbn in H;
      [| discriminate].
    destruct (IH mid H v Hin) as [Hmid | (t & args & Ht & Hrest)].
    + destruct (tool_step_provenance _ _ _ Hstep v Hmid)
        as [Hold | (args & Hargs)].
      * now left.
      * right. exists tool, args. split; [now left | exact Hargs].
    + right. exists t, args. split; [now right | exact Hrest].
Qed.

(** X15: each call changes the length of the order list by at most one: after
    the loop the list is at most as many items longer, and at most as many
    items shorter, as there were calls. *)
Theorem for_each_tool_length
    (calls : list ToolCall) (order order' : list value) :
  for_each_tool calls order = Ok order' ->
  List.length order' <= List.length order + List.length calls /\
  List.length order <= List.length order' + List.length calls.
Proof.
  revert order. induction calls as [| tool calls IH]; cbn; intros order H.
  - assert (order' = order) as -> by congruence. lia.
  - destruct (tool_step tool order) as [mid | e] eqn:Hstep; cbn in H;
      [| discriminate].
    apply tool_step_length in Hstep. apply IH in H. lia.
Qed.


(** *** The Conversational Order Agent *)

(** X17: a history of at most 6 turns is forwarded whole: the messages of the
    first call are the system prompt, every turn of the history in its
    order, and the new user message. *)
Theorem chat_forwards_short_history (request : ChatRequest) :
  List.length (history request) <= 6 ->
  messages (first_call request)
    = Literal (JObj [("role", JStr "system");
                     ("content", JStr (system_prompt request))])
      :: map (fun t => Literal (turn_dict t)) (history request)
      ++ [Literal (JObj [("role", JStr "user");
                         ("content", JStr (user_message request))])].
Proof.
  intro Hlen. cbn [first_call messages].
  unfold initial_messages, last_n.
  replace (List.length (history request) - 6) with 0 by lia.
  reflexivity.
Qed.

(** X18: the first call never carries more than 8 messages: the system prompt,
    the user message and as many turns as the history has, up to 6. *)
Theorem chat_first_call_size (request : ChatRequest) :
  List.length (messages (first_call request))
    = 2 + Nat.min 6 (List.length (history request)).
Proof.
  cbn [first_call messages]. unfold initial_messages, last_n.
  rewrite !length_app, length_map, length_skipn. cbn [List.length].
  lia.
Qed.

(** X19: when applying the tool calls raises (arguments that do not decode, a
    missing key), the handler raises that exception: the second model call
    is not made, and the changes of the calls applied before are lost with
    the working copy. *)
Theorem chat_tool_failure_propagates
    (request : ChatRequest) (s : State) (msg : ChatCompletionMessage)
    (w1 : World) (tool0 : ToolCall) (others : list ToolCall) (e : exn) :
  first_reply request s msg w1 ->
  tool_calls msg = Some (tool0 :: others) ->
  for_each_tool (tool0 :: others) (map JStr (current_order request))
    = Raise e ->
  chat_with_bill request s
    = (Raise e,
       {| world := w1;
          outbox := outbox s ++ [ChatCreate (first_call request)] |}).
Proof.
  intros (resp & rest & Hcall & Hchoices) Hcalls Hloop.
  unfold chat_with_bill, bind, call_create, lift, ret.
  rewrite Hcall, Hchoices. cbn [item0 message world outbox].
  now rewrite Hcalls, Hloop.
Qed.

(** X20: an answer of the first model call without any choice makes the
    handler raise [IndexError], after that one call. *)
Theorem chat_first_answer_without_choice
    (request : ChatRequest) (s : State) (resp : ChatCompletion) (w : World) :
  completions_create (first_call request) (world s) = (Ok resp, w) ->
  choices resp = [] ->
  chat_with_bill request s
    = (Raise IndexError,
       {| world := w;
          outbox := outbox s ++ [ChatCreate (first_call request)] |}).
Proof.
  intros Hcall Hchoices.
  unfold chat_with_bill, bind, call_create, lift, ret.
  now rewrite Hcall, Hchoices.
Qed.

(** X21: an answer of the second model call without any choice makes the
    handler raise [IndexError]: the order computed by the tool calls is
    not returned. *)
Theorem chat_second_answer_without_choice
    (request : ChatRequest) (s : State) (msg : ChatCompletionMessage)
    (w1 w2 : World) (tool0 : ToolCall) (others : list ToolCall)
    (order : list value) (resp2 : ChatCompletion) :
  first_reply request s msg w1 ->
  tool_calls msg = Some (tool0 :: others) ->
  for_each_tool (tool0 :: others) (map JStr (current_order request))
    = Ok order ->
  completions_create (second_call request msg (id tool0)) w1
    = (Ok resp2, w2) ->
  choices resp2 = [] ->
  fst (chat_with_bill request s) = Raise IndexError.
Proof.
  intros (resp & rest & Hcall & Hchoices) Hcalls Hloop Hcall2 Hchoices2.
  unfold chat_with_bill, bind, call_create, lift, ret.
  rewrite Hcall, Hchoices. cbn [item0 message world outbox].
  rewrite Hcalls, Hloop. cbn [world outbox].
  now rewrite Hcall2, Hchoices2.
Qed.


(** X23: there is one round of tool calls only.  Whatever values the calls of
    the first answer left in the order list, that list is returned with the
    text of the second answer; tool calls in the second answer are not
    applied, and no third call is made. *)
Theorem chat_single_round
    (request : ChatRequest) (s : State)
    (msg msg2 : ChatCompletionMessage) (w1 w2 : World)
    (tool0 : ToolCall) (others : list ToolCall) (order : list value) :
  first_reply request s msg w1 ->
  tool_calls msg = Some (tool0 :: others) ->
  for_each_tool (tool0 :: others) (map JStr (current_order request))
    = Ok order ->
  second_reply request msg (id tool0) w1 msg2 w2 ->
  chat_with_bill request s
    = (Ok (JObj [("text", of_optional (content msg2));
                 ("updated_order", JArr order)]),
       {| world := w2;
          outbox :=
            outbox s ++
            [ChatCreate (first_call request);
             ChatCreate (second_call request msg (id tool0))] |}).
Proof.
  intros Hfirst Hcalls Hloop Hsecond.
  rewrite (chat_with_tool_calls request s msg msg2 w1 w2 tool0 others
             order Hfirst Hcalls Hloop Hsecond).
  unfold reply. now rewrite <- app_assoc.
Qed.

End Further.

(** ** Runs on the scripted platform *)

#[local] Existing Instance Fixture.platform.

Lemma identify_restaurant_fail_soft_run :
  (exists shown,
      fst (identify_restaurant Fixture.little_rock
             (Fixture.start (Raise (ServiceError "timeout")) []))
        = Ok (JObj [("name", JStr shown); ("address", JStr "N/A")]) /\
      prefix "Unknown Location" shown = true) /\
  (exists shown,
      fst (identify_restaurant Fixture.little_rock
             (Fixture.start (Ok (JObj [("results", JArr [])])) []))
        = Ok (JObj [("name", JStr shown); ("address", JStr "N/A")]) /\
      prefix "Unknown Location" shown = true).
Proof.
  split.
  - eapply (@identify_restaurant_fail_soft Fixture.platform).
    + reflexivity.
    + apply lookup_raises.
  - eapply (@identify_restaurant_fail_soft Fixture.platform).
    + reflexivity.
    + apply lookup_empty. reflexivity.
Defined.

Example run_add_then_remove :
  fst (chat_with_bill (Fixture.tab ["Fries"] [])
         (Fixture.ordering [Fixture.add_burger; Fixture.remove_fries]))
    = Ok (JObj [("text", JStr "Comin' right up.");
                ("updated_order", JArr [JStr "Burger"])]).
Proof. reflexivity. Qed.

Example run_undecodable_arguments :
  fst (chat_with_bill (Fixture.tab ["Fries"] [])
         (Fixture.ordering
            [{| id := "call_9";
                function := {| name := "update_order";
                               arguments := "add a pie" |} |}]))
    = Raise JSONDecodeError.
Proof. reflexivity. Qed.

Example run_arguments_without_action :
  fst (chat_with_bill (Fixture.tab ["Fries"] [])
         (Fixture.ordering
            [{| id := "call_9";
                function := {| name := "update_order";
                               arguments := "{}" |} |}]))
    = Raise (KeyError (JStr "action")).
Proof. reflexivity. Qed.

Example run_seven_turns :
  tl (messages (first_call (Fixture.tab [] Fixture.seven_turns)))
    = map (fun t => Literal (turn_dict t))
        [Fixture.turn "assistant" "t2"; Fixture.turn "user" "t3";
         Fixture.turn "assistant" "t4"; Fixture.turn "user" "t5";
         Fixture.turn "assistant" "t6"; Fixture.turn "user" "t7"]
      ++ [Literal (JObj [("role", JStr "user");
                         ("content", JStr "What are you having?")])].
Proof. reflexivity. Qed.

Example run_bool_equals_int :
  contains (JInt 1) [JStr "1"; JBool true] = true /\
  list_remove (JInt 1) [JStr "1"; JBool true; JInt 1]
    = Ok [JStr "1"; JInt 1].
Proof. split; reflexivity. Qed.

Example run_places_candidate :
  fst (identify_restaurant Fixture.little_rock
         (Fixture.start
            (Ok (JObj [("results",
                        JArr [JObj [("name", JStr "Doe's");
                                    ("vicinity", JStr "1023 W Markham")]])]))
            []))
    = Ok (JObj [("name", JStr "Doe's"); ("address", JStr "1023 W Markham")]).
Proof. reflexivity. Qed.

Lemma chat_applies_all_acknowledges_first_run :
  chat_with_bill (Fixture.tab ["Fries"; "Pie"] [])
    (Fixture.ordering
       [Fixture.remove_pie; Fixture.add_burger; Fixture.remove_fries])
  = (Ok (JObj [("text", JStr "Comin' right up.");
               ("updated_order", JArr [JStr "Burger"])]),
     @Build_State Fixture.platform (Fixture.left_over [])
       [ChatCreate (first_call (Fixture.tab ["Fries"; "Pie"] []));
        ChatCreate
          {| model := "gpt-4o";
             messages :=
               initial_messages (Fixture.tab ["Fries"; "Pie"] []) ++
               [Reply (Fixture.says None
                         (Some [Fixture.remove_pie; Fixture.add_burger;
                                Fixture.remove_fries]));
                Literal (JObj [("role", JStr "tool");
                               ("tool_call_id", JStr "call_3");
                               ("content", JStr "Order Updated.")])];
             tools := None;
             tool_choice := None;
             response_format := None |}]).
Proof.
  apply (@chat_applies_all_acknowledges_first Fixture.platform
           (Fixture.tab ["Fries"; "Pie"] [])
           (Fixture.ordering
              [Fixture.remove_pie; Fixture.add_burger; Fixture.remove_fries])
           (Fixture.says None
              (Some [Fixture.remove_pie; Fixture.add_burger;
                     Fixture.remove_fries]))
           Fixture.confirmation
           (Fixture.left_over [Fixture.answer Fixture.confirmation])
           (Fixture.left_over [])
           Fixture.remove_pie [Fixture.add_burger; Fixture.remove_fries]
           [{| item_name := "Pie"; action := remove |};
            {| item_name := "Burger"; action := add |};
            {| item_name := "Fries"; action := remove |}]).
  - do 2 eexists. split; reflexivity.
  - reflexivity.
  - repeat constructor; eexists; repeat split; reflexivity.
  - do 2 eexists. split; reflexivity.
Defined.

Lemma chat_add_burger_remove_fries_run :
  fst (chat_with_bill (Fixture.tab ["Fries"] [])
         (Fixture.ordering [Fixture.add_burger; Fixture.remove_fries]))
    = Ok (JObj [("text", JStr "Comin' right up.");
                ("updated_order", JArr [JStr "Burger"])]).
Proof.
  eapply (@chat_add_burger_remove_fries Fixture.platform
            (Fixture.tab ["Fries"] []) _ _ Fixture.confirmation).
  - reflexivity.
  - do 2 eexists. split; reflexivity.
  - reflexivity.
  - eexists. repeat split; reflexivity.
  - eexists. repeat split; reflexivity.
  - do 2 eexists. split; reflexivity.
Defined.

Lemma chat_no_invocation_keeps_order_run :
  chat_with_bill (Fixture.tab ["Fries"; "Pie"] [])
    (Fixture.start (Raise (ServiceError "unused"))
       [Fixture.answer (Fixture.says (Some "Howdy.") None)])
  = (Ok (JObj [("text", JStr "Howdy.");
               ("updated_order", JArr [JStr "Fries"; JStr "Pie"])]),
     @Build_State Fixture.platform (Fixture.left_over [])
       [ChatCreate (first_call (Fixture.tab ["Fries"; "Pie"] []))]).
Proof.
  apply (@chat_no_invocation_keeps_order Fixture.platform
           (Fixture.tab ["Fries"; "Pie"] [])
           (Fixture.start (Raise (ServiceError "unused"))
              [Fixture.answer (Fixture.says (Some "Howdy.") None)])
           (Fixture.says (Some "Howdy.") None)
           (Fixture.left_over [])).
  - do 2 eexists. split; reflexivity.
  - left. reflexivity.
Defined.

Lemma chat_single_add_appends_run :
  fst (chat_with_bill (Fixture.tab ["Burger"; "Fries"] [])
         (Fixture.ordering [Fixture.add_burger]))
    = Ok (JObj [("text", JStr "Comin' right up.");
                ("updated_order",
                 JArr [JStr "Burger"; JStr "Fries"; JStr "Burger"])]).
Proof.
  eapply (@chat_single_add_appends Fixture.platform
            (Fixture.tab ["Burger"; "Fries"] []) _ _ Fixture.confirmation).
  - do 2 eexists. split; reflexivity.
  - reflexivity.
  - eexists. repeat split; reflexivity.
  - do 2 eexists. split; reflexivity.
Defined.

Lemma chat_single_remove_deletes_first_run :
  exists updated,
    fst (chat_with_bill (Fixture.tab ["Pie"; "Fries"; "Pie"; "Fries"] [])
           (Fixture.ordering [Fixture.remove_fries]))
      = Ok (JObj [("text", JStr "Comin' right up.");
                  ("updated_order", JArr (map JStr updated))]) /\
    (In "Fries" ["Pie"; "Fries"; "Pie"; "Fries"] ->
     (exists before after,
         ["Pie"; "Fries"; "Pie"; "Fries"] = before ++ "Fries" :: after /\
         ~ In "Fries" before /\
         updated = before ++ after) /\
     S (count_occ string_dec updated "Fries")
       = count_occ string_dec ["Pie"; "Fries"; "Pie"; "Fries"] "Fries") /\
    (~ In "Fries" ["Pie"; "Fries"; "Pie"; "Fries"] ->
     updated = ["Pie"; "Fries"; "Pie"; "Fries"]).
Proof.
  eapply (@chat_single_remove_deletes_first Fixture.platform
            (Fixture.tab ["Pie"; "Fries"; "Pie"; "Fries"] []) _ _
            Fixture.confirmation).
  - do 2 eexists. split; reflexivity.
  - reflexivity.
  - eexists. repeat split; reflexivity.
  - do 2 eexists. split; reflexivity.
Defined.

Lemma chat_forwards_last_six_turns_run :
  exists earlier recent,
    Fixture.seven_turns = earlier ++ recent /\
    List.length recent = 6 /\
    earlier <> [] /\
    messages (@first_call Fixture.platform (Fixture.tab [] Fixture.seven_turns))
      = Literal (JObj [("role", JStr "system");
                       ("content",
                        JStr (@system_prompt Fixture.platform
                                (Fixture.tab [] Fixture.seven_turns)))])
        :: map (fun t => Literal (turn_dict t)) recent
        ++ [Literal (JObj [("role", JStr "user");
                           ("content", JStr "What are you having?")])] /\
    (forall t,
        In (Literal (turn_dict t))
          (messages (@first_call Fixture.platform
                       (Fixture.tab [] Fixture.seven_turns))) ->
        In t recent \/
        Literal (turn_dict t)
          = @system_message Fixture.platform
              (Fixture.tab [] Fixture.seven_turns) \/
        Literal (turn_dict t)
          = user_turn (Fixture.tab [] Fixture.seven_turns)) /\
    (exists later,
        outbox (snd (chat_with_bill (Fixture.tab [] Fixture.seven_turns)
                       (Fixture.ordering [Fixture.add_burger])))
          = [] ++ ChatCreate (first_call (Fixture.tab [] Fixture.seven_turns))
                  :: later).
Proof.
  apply (@chat_forwards_last_six_turns Fixture.platform
           (Fixture.tab [] Fixture.seven_turns)
           (Fixture.ordering [Fixture.add_burger])).
  cbn. lia.
Defined.

Lemma scan_menu_falls_back_run :
  fst (scan_menu Fixture.empty_upload
         (Fixture.start (Raise (ServiceError "unused"))
            [Raise (ServiceError "model unavailable")]))
    = Ok (JObj [("drinks", JArr [JStr "Coke"; JStr "Water"]);
                ("entrees", JArr [JStr "Burger"; JStr "Salad"])]) /\
  fst (scan_menu Fixture.empty_upload
         (Fixture.start (Raise (ServiceError "unused"))
            [Fixture.answer (Fixture.says (Some "I see a menu") None)]))
    = Ok (JObj [("drinks", JArr [JStr "Coke"; JStr "Water"]);
                ("entrees", JArr [JStr "Burger"; JStr "Salad"])]).
Proof.
  split.
  - eapply (@scan_menu_falls_back Fixture.platform Fixture.empty_upload []).
    + reflexivity.
    + reflexivity.
    + apply extraction_raises.
  - eapply (@scan_menu_falls_back Fixture.platform Fixture.empty_upload []).
    + reflexivity.
    + reflexivity.
    + eapply extraction_unparseable; reflexivity.
Defined.

Lemma chat_model_failure_propagates_run :
  fst (chat_with_bill (Fixture.tab ["Fries"] [])
         (Fixture.start (Raise (ServiceError "unused"))
            [Raise (ServiceError "rate limited")]))
    = Raise (ServiceError "rate limited") /\
  fst (chat_with_bill (Fixture.tab ["Fries"] [])
         (Fixture.start (Raise (ServiceError "unused"))
            [Fixture.answer (Fixture.says None (Some [Fixture.add_burger]));
             Raise (ServiceError "connection reset")]))
    = Raise (ServiceError "connection reset").
Proof.
  split.
  - apply (@chat_model_failure_propagates Fixture.platform).
    eapply first_call_raises. reflexivity.
  - apply (@chat_model_failure_propagates Fixture.platform).
    eapply (@second_call_raises Fixture.platform _ _ _
              (Fixture.says None (Some [Fixture.add_burger]))).
    + do 2 eexists. split; reflexivity.
    + reflexivity.
    + reflexivity.
    + reflexivity.
Defined.

Lemma tool_step_ignores_other_actions_run :
  @tool_step Fixture.platform Fixture.flambe_burger [JStr "Fries"]
    = Ok [JStr "Fries"] /\
  (forall before after start,
      @for_each_tool Fixture.platform
        (before ++ Fixture.flambe_burger :: after) start
      = for_each_tool (before ++ after) start).
Proof.
  apply (@tool_step_ignores_other_actions Fixture.platform
           Fixture.flambe_burger (Fixture.args_dict "flambe" "Burger")
           (JStr "flambe") (JStr "Burger")).
  - reflexivity.
  - reflexivity.
  - reflexivity.
  - discriminate.
  - discriminate.
Defined.

(** ** Runs of the further properties *)

Lemma identify_restaurant_first_candidate_run :
  fst (identify_restaurant Fixture.little_rock
         (Bench.start
            (Ok (Bench.found
                   [Bench.does_place; JObj [("name", JStr "Sims")]]))
            []))
    = Ok (JObj [("name", JStr "Doe's"); ("address", JNull)]).
Proof.
  eapply (@identify_restaurant_first_candidate Bench.platform
           Fixture.little_rock _
           (Bench.found [Bench.does_place; JObj [("name", JStr "Sims")]])
           _
           [("name", JStr "Doe's"); ("rating", JInt 5)]
           [JObj [("name", JStr "Sims")]]).
  - reflexivity.
  - reflexivity.
Defined.

Lemma identify_restaurant_masks_malformed_run :
  fst (identify_restaurant Fixture.little_rock
         (Bench.start (Ok (JObj [("status", JStr "REQUEST_DENIED")])) []))
    = Ok (JObj [("name", JStr "Unknown Location (Error)");
                ("address", JStr "N/A")]) /\
  fst (identify_restaurant Fixture.little_rock
         (Bench.start (Ok (Bench.found [JStr "Doe's"])) []))
    = Ok (JObj [("name", JStr "Unknown Location (Error)");
                ("address", JStr "N/A")]).
Proof.
  split.
  - eapply (@identify_restaurant_masks_malformed Bench.platform
             Fixture.little_rock _
             (JObj [("status", JStr "REQUEST_DENIED")])
             _).
    + reflexivity.
    + left. eexists. reflexivity.
  - eapply (@identify_restaurant_masks_malformed Bench.platform
             Fixture.little_rock _ (Bench.found [JStr "Doe's"])
             _).
    + reflexivity.
    + right. exists (JStr "Doe's"), []. split; [reflexivity | discriminate].
Defined.

Lemma scan_menu_returns_parsed_run :
  fst (scan_menu Fixture.empty_upload (Bench.extracting Bench.tea_menu))
    = Ok (JObj [("drinks", JArr [JStr "Tea"])]).
Proof.
  eapply (@scan_menu_returns_parsed Bench.platform Fixture.empty_upload []).
  - reflexivity.
  - reflexivity.
  - reflexivity.
  - reflexivity.
  - reflexivity.
Defined.

Lemma scan_menu_read_failure_propagates_run :
  scan_menu Bench.aborted_upload (Bench.extracting Bench.tea_menu)
    = (Raise (ServiceError "upload aborted"),
       Bench.extracting Bench.tea_menu).
Proof.
  apply (@scan_menu_read_failure_propagates Bench.platform).
  reflexivity.
Defined.

Lemma scan_menu_one_request_run :
  outbox (snd (scan_menu Fixture.empty_upload
                 (Bench.extracting "I see a menu")))
    = [] ++
      [ChatCreate
         {| model := "gpt-4o";
            messages :=
              [Literal (JObj
                 [("role", JStr "user");
                  ("content", JArr
                     [JObj [("type", JStr "text"); ("text", JStr prompt)];
                      JObj [("type", JStr "image_url");
                            ("image_url", JObj
                               [("url",
                                 JStr ("data:image/jpeg;base64," ++
                                       @b64encode Bench.platform []))])]])])];
            tools := None;
            tool_choice := None;
            response_format := Some (JObj [("type", JStr "json_object")]) |}].
Proof.
  apply (@scan_menu_one_request Bench.platform Fixture.empty_upload []).
  reflexivity.
Defined.

Lemma scan_menu_masks_empty_choices_run :
  fst (scan_menu Fixture.empty_upload
         (Bench.start (Raise (ServiceError "unused")) [Bench.no_choice]))
    = Ok fallback_menu.
Proof.
  eapply (@scan_menu_masks_empty_choices Bench.platform
            Fixture.empty_upload []).
  - reflexivity.
  - reflexivity.
  - reflexivity.
Defined.

Lemma scan_menu_answer_origin_run :
  JObj [("drinks", JArr [JStr "Tea"])] = fallback_menu \/
  exists image_data resp w choice others text,
    read Fixture.empty_upload = Ok image_data /\
    @completions_create Bench.platform
      (scan_args (@b64encode Bench.platform image_data))
      (world (Bench.extracting Bench.tea_menu))
      = (Ok resp, w) /\
    choices resp = choice :: others /\
    content (message choice) = Some text /\
    @json_loads Bench.platform text = Ok (JObj [("drinks", JArr [JStr "Tea"])]).
Proof.
  apply (@scan_menu_answer_origin Bench.platform Fixture.empty_upload
           (Bench.extracting Bench.tea_menu)).
  reflexivity.
Defined.

Lemma tool_step_add_any_value_run :
  @tool_step Bench.platform Bench.add_five_call [JStr "Fries"]
    = Ok ([JStr "Fries"] ++ [JInt 5]).
Proof.
  eapply (@tool_step_add_any_value Bench.platform).
  - reflexivity.
  - reflexivity.
  - reflexivity.
Defined.

Lemma tool_step_other_action_reads_no_item_run :
  @tool_step Bench.platform Bench.shrug_call [JStr "Fries"]
    = Ok [JStr "Fries"].
Proof.
  eapply (@tool_step_other_action_reads_no_item Bench.platform
            Bench.shrug_call _ (JStr "shrug")).
  - reflexivity.
  - reflexivity.
  - discriminate.
  - discriminate.
Defined.

Lemma tool_step_missing_item_raises_run :
  @tool_step Bench.platform Bench.bare_add_call [JStr "Fries"]
    = Raise (KeyError (JStr "item_name")).
Proof.
  eapply (@tool_step_missing_item_raises Bench.platform
            Bench.bare_add_call _ "add").
  - reflexivity.
  - reflexivity.
  - left. reflexivity.
  - reflexivity.
Defined.

Lemma tool_step_fails_only_on_lookup_run :
  getitem (JObj [("action", JStr "add")]) (JStr "action")
    = Raise (KeyError (JStr "item_name")) \/
  getitem (JObj [("action", JStr "add")]) (JStr "item_name")
    = Raise (KeyError (JStr "item_name")).
Proof.
  apply (@tool_step_fails_only_on_lookup Bench.platform
           Bench.bare_add_call (JObj [("action", JStr "add")])
           [JStr "Fries"]).
  - reflexivity.
  - reflexivity.
Defined.

Lemma for_each_tool_provenance_run :
  In (JInt 5) [JStr "Burger"; JStr "Fries"] \/
  exists tool args,
    In tool [Bench.remove_burger; Bench.shrug_call; Bench.add_five_call] /\
    @json_loads Bench.platform (arguments (function tool)) = Ok args /\
    getitem args (JStr "action") = Ok (JStr "add") /\
    getitem args (JStr "item_name") = Ok (JInt 5).
Proof.
  apply (@for_each_tool_provenance Bench.platform
           [Bench.remove_burger; Bench.shrug_call; Bench.add_five_call]
           [JStr "Burger"; JStr "Fries"] [JStr "Fries"; JInt 5]).
  - reflexivity.
  - right. left. reflexivity.
Defined.

Lemma for_each_tool_length_run :
  List.length [JStr "Fries"; JInt 5]
    <= List.length [JStr "Burger"; JStr "Fries"]
       + List.length
           [Bench.remove_burger; Bench.shrug_call; Bench.add_five_call] /\
  List.length [JStr "Burger"; JStr "Fries"]
    <= List.length [JStr "Fries"; JInt 5]
       + List.length
           [Bench.remove_burger; Bench.shrug_call; Bench.add_five_call].
Proof.
  apply (@for_each_tool_length Bench.platform).
  reflexivity.
Defined.


Lemma chat_forwards_short_history_run :
  messages (@first_call Bench.platform
              (Fixture.tab [] [Fixture.turn "user" "Howdy"]))
    = Literal (JObj [("role", JStr "system");
                     ("content",
                      JStr (@system_prompt Bench.platform
                              (Fixture.tab [] [Fixture.turn "user" "Howdy"])))])
      :: map (fun t => Literal (turn_dict t)) [Fixture.turn "user" "Howdy"]
      ++ [Literal (JObj [("role", JStr "user");
                         ("content", JStr "What are you having?")])].
Proof.
  apply (@chat_forwards_short_history Bench.platform
           (Fixture.tab [] [Fixture.turn "user" "Howdy"])).
  cbn. lia.
Defined.

Lemma chat_tool_failure_propagates_run :
  chat_with_bill (Fixture.tab ["Fries"] [])
    (Bench.ordering [Fixture.add_burger; Bench.garbled_call])
  = (Raise JSONDecodeError,
     @Build_State Bench.platform
       (Fixture.left_over [Fixture.answer Fixture.confirmation])
       ([] ++ [ChatCreate (@first_call Bench.platform
                             (Fixture.tab ["Fries"] []))])).
Proof.
  apply (@chat_tool_failure_propagates Bench.platform
           (Fixture.tab ["Fries"] [])
           (Bench.ordering [Fixture.add_burger; Bench.garbled_call])
           (Fixture.says None
              (Some [Fixture.add_burger; Bench.garbled_call]))
           (Fixture.left_over [Fixture.answer Fixture.confirmation])
           Fixture.add_burger [Bench.garbled_call]).
  - do 2 eexists. split; reflexivity.
  - reflexivity.
  - reflexivity.
Defined.

Lemma chat_first_answer_without_choice_run :
  chat_with_bill (Fixture.tab ["Fries"] [])
    (Bench.start (Raise (ServiceError "unused")) [Bench.no_choice])
  = (Raise IndexError,
     @Build_State Bench.platform (Fixture.left_over [])
       ([] ++ [ChatCreate (@first_call Bench.platform
                             (Fixture.tab ["Fries"] []))])).
Proof.
  apply (@chat_first_answer_without_choice Bench.platform
           (Fixture.tab ["Fries"] [])
           (Bench.start (Raise (ServiceError "unused")) [Bench.no_choice])
           {| choices := [] |} (Fixture.left_over [])).
  - reflexivity.
  - reflexivity.
Defined.

Lemma chat_second_answer_without_choice_run :
  fst (chat_with_bill (Fixture.tab ["Fries"] [])
         (Bench.start (Raise (ServiceError "unused"))
            [Fixture.answer (Fixture.says None (Some [Fixture.add_burger]));
             Bench.no_choice]))
    = Raise IndexError.
Proof.
  eapply (@chat_second_answer_without_choice Bench.platform
            (Fixture.tab ["Fries"] []) _
            (Fixture.says None (Some [Fixture.add_burger]))).
  - do 2 eexists. split; reflexivity.
  - reflexivity.
  - reflexivity.
  - reflexivity.
  - reflexivity.
Defined.

Lemma chat_single_round_run :
  chat_with_bill (Fixture.tab ["Fries"] [])
    (Bench.start (Raise (ServiceError "unused"))
       [Fixture.answer (Fixture.says None (Some [Bench.add_five_call]));
        Fixture.answer
          (Fixture.says (Some "Done.") (Some [Fixture.remove_fries]))])
  = (Ok (JObj [("text", JStr "Done.");
               ("updated_order", JArr [JStr "Fries"; JInt 5])]),
     @Build_State Bench.platform (Fixture.left_over [])
       ([] ++
        [ChatCreate (@first_call Bench.platform (Fixture.tab ["Fries"] []));
         ChatCreate
           (@second_call Bench.platform (Fixture.tab ["Fries"] [])
              (Fixture.says None (Some [Bench.add_five_call]))
              "call_5")])).
Proof.
  apply (@chat_single_round Bench.platform
           (Fixture.tab ["Fries"] [])
           (Bench.start (Raise (ServiceError "unused"))
              [Fixture.answer (Fixture.says None (Some [Bench.add_five_call]));
               Fixture.answer
                 (Fixture.says (Some "Done.") (Some [Fixture.remove_fries]))])
           (Fixture.says None (Some [Bench.add_five_call]))
           (Fixture.says (Some "Done.") (Some [Fixture.remove_fries]))
           (Fixture.left_over
              [Fixture.answer
                 (Fixture.says (Some "Done.") (Some [Fixture.remove_fries]))])
           (Fixture.left_over [])
           Bench.add_five_call [] [JStr "Fries"; JInt 5]).
  - do 2 eexists. split; reflexivity.
  - reflexivity.
  - reflexivity.
  - do 2 eexists. split; reflexivity.
Defined.
